(** * Concierge agent: a shallow embedding of [concierge_agent.py]

    The agent is a sequential pipeline of calls to external services (a text
    generator, a web search, a page fetcher, a geolocation service, a mail
    transport) and to the terminal.  The embedding keeps that shape:

    - Python [str] values are [string]s, with the string methods the program
      uses ([strip], [lower], [in], [startswith], [split], [replace],
      [join], slices) written out.  The methods are exact on ASCII text;
      bytes above 127 are carried through unchanged.
    - The value [json.loads] returns is a [pyval].
    - The program runs in a state-and-exception monad [M] over a [World]: the
      log of everything the program did to the outside (newest entry first)
      and the one list object [conversation_history] that [main] allocates.
    - What the outside answers is given by an [Env]: the network, the
      terminal and the library functions whose code is not part of the
      repository.  Every answer may depend on the whole log so far. *)

From Stdlib Require Import String Ascii List ZArith Lia Bool.
From Stdlib Require Import Floats.SpecFloat.
From stdpp Require Import base option strings gmap.
Import ListNotations.
Local Open Scope list_scope.
Local Open Scope string_scope.

Set Default Proof Using "Type".
Set Warnings "-abstract-large-number".

(** ** Python strings *)

Module PyStr.

(** The double quote and the line feed, which a literal cannot hold. *)
Definition dq : string := String (ascii_of_nat 34) EmptyString.
Definition nl : string := String (ascii_of_nat 10) EmptyString.

(** [str.isspace] on one ASCII character: TAB, LF, VT, FF, CR, the four
    separators FS GS RS US, and the space. *)
Definition is_space (c : ascii) : bool :=
  let n := nat_of_ascii c in
  ((9 <=? n)%nat && (n <=? 13)%nat) || ((28 <=? n)%nat && (n <=? 32)%nat).

(** [s.lstrip()], [s.rstrip()], [s.strip()] *)
Fixpoint lstrip (s : string) : string :=
  match s with
  | EmptyString => EmptyString
  | String c s' => if is_space c then lstrip s' else s
  end.

Fixpoint rstrip (s : string) : string :=
  match s with
  | EmptyString => EmptyString
  | String c s' =>
      match rstrip s' with
      | EmptyString => if is_space c then EmptyString else String c EmptyString
      | r => String c r
      end
  end.

Definition strip (s : string) : string := rstrip (lstrip s).

(** [s.lower()] *)
Definition lower_ascii (c : ascii) : ascii :=
  let n := nat_of_ascii c in
  if ((65 <=? n)%nat && (n <=? 90)%nat) then ascii_of_nat (n + 32) else c.

Fixpoint lower (s : string) : string :=
  match s with
  | EmptyString => EmptyString
  | String c s' => String (lower_ascii c) (lower s')
  end.

(** [s.startswith(p)] *)
Fixpoint startswith (p s : string) : bool :=
  match p with
  | EmptyString => true
  | String a p' =>
      match s with
      | EmptyString => false
      | String b s' => Ascii.eqb a b && startswith p' s'
      end
  end.

(** [sub in s] *)
Fixpoint contains (sub s : string) : bool :=
  startswith sub s ||
  match s with
  | EmptyString => false
  | String _ s' => contains sub s'
  end.

(** [s.split(sep)] for a one-character separator: never empty, and
    [''.split(sep) = ['']]. *)
Fixpoint split (sep : ascii) (s : string) : list string :=
  match s with
  | EmptyString => [EmptyString]
  | String c s' =>
      if Ascii.eqb c sep then EmptyString :: split sep s'
      else match split sep s' with
           | [] => [String c EmptyString]
           | l :: ls => String c l :: ls
           end
  end.

(** [s.replace(c, '')] for a one-character [c] *)
Fixpoint remove_char (c : ascii) (s : string) : string :=
  match s with
  | EmptyString => EmptyString
  | String a s' => if Ascii.eqb a c then remove_char c s' else String a (remove_char c s')
  end.

(** [sep.join(l)] *)
Definition join (sep : string) (l : list string) : string := String.concat sep l.

(** [s[:n]] and [s[-n:]] *)
Definition take (n : nat) (s : string) : string := substring 0 n s.
Definition take_last (n : nat) (s : string) : string :=
  substring (String.length s - n) n s.

(** [not s] *)
Definition is_empty (s : string) : bool :=
  match s with EmptyString => true | _ => false end.

(** The line feed, as a character. *)
Definition LF : ascii := ascii_of_nat 10.



End PyStr.
Import PyStr.

(** ** Python values

    What [json.loads] can return.  A JSON object becomes a [dict], modelled
    as a finite map; of a [dict] the program only uses [.get]. *)

#[warnings="-register-all"]
Inductive pyval : Type :=
| PNone
| PBool (b : bool)
| PInt (z : Z)
| PFloat (f : spec_float)
| PStr (s : string)
| PList (l : list pyval)
| PDict (d : gmap string pyval).

(** [bool(v)]: the truth value of a Python value. *)
Definition truthy (v : pyval) : bool :=
  match v with
  | PNone => false
  | PBool b => b
  | PInt z => negb (Z.eqb z 0)
  | PFloat (S754_zero _) => false
  | PFloat _ => true
  | PStr s => negb (is_empty s)
  | PList l => match l with [] => false | _ => true end
  | PDict d => negb (bool_decide (d = ∅))
  end.

(** [all([a, b])] *)
Definition all2 (a b : pyval) : bool := truthy a && truthy b.

(** ** Exceptions *)

Inductive exn_class : Type :=
| JSONDecodeError
| AttributeError
| OtherError (name : string).

Record exn : Type := Exn { exn_cls : exn_class; exn_msg : string }.

(** ** The log of a run

    Every print, every read from the terminal and every call of one of the
    tools of Part 1 and Part 2 is recorded, a tool call together with what it
    returned. *)

Inductive event : Type :=
| EvPrint (text : string)
| EvInput (prompt answer : string)
| EvGenerate (prompt output_format reply : string)
| EvSearch (query result : string)
| EvBrowse (url result : string)
| EvLocate (result : string)
| EvSendEmail (to_address : string) (subject body : pyval) (result : exn + string).

(** Newest entry first. *)
Definition Log : Type := list event.

Record World : Type := mkWorld {
  log : Log;
  conversation_history : list string
}.

(** ** The outside *)

(** The JSON body posted to the generator. *)
Record ollama_payload : Type := OllamaPayload {
  pl_model : string;
  pl_prompt : string;
  pl_stream : bool;
  pl_format : option string
}.

(** What [requests.post] to the generator leads to, by the [except] clause
    that handles it; on success the optional ["response"] field of the body. *)
Inductive ollama_outcome : Type :=
| OllamaTimeout
| OllamaRequestError (e : string)
| OllamaKeyError (e response_text : string)
| OllamaOk (response : option string).

Record organic_item : Type := OrganicItem {
  it_title : option string;
  it_link : option string;
  it_snippet : option string
}.

(** The search request: it fails before a response arrives, or a response
    arrives (its status code and text are printed) and then either
    [raise_for_status] or the JSON decoding fails, or the body is decoded
    and its ["organic"] list read. *)
Inductive serper_body : Type :=
| SerperBad (e : string)
| SerperOrganic (items : list organic_item).

Inductive serper_outcome : Type :=
| SerperNoResponse (e : string)
| SerperResponse (status_code text : string) (body : serper_body).

(** The page request: a [RequestException], or the text left after the
    script and style elements are dropped and the chunks re-joined. *)
Inductive page_outcome : Type :=
| PageError (e : string)
| PageText (text : string).

Inductive geo_outcome : Type :=
| GeoError (e : string)
| GeoData (city country : option string).

Record Env : Type := mkEnv {
  (** [os.environ.get] *)
  environ : string -> option string;
  (** the terminal: the line [input] reads *)
  stdin_line : Log -> string -> string;
  (** the network *)
  ollama_post : Log -> string -> ollama_payload -> ollama_outcome;
  serper_post : Log -> string -> serper_outcome;
  page_get : Log -> string -> page_outcome;
  ip_api_get : Log -> geo_outcome;
  (** [smtplib]: [None] when the message went out, the exception otherwise *)
  smtp_send : Log -> string -> pyval -> pyval -> option string;
  (** [json.loads]: the message of the [JSONDecodeError], or the value *)
  json_loads : string -> string + pyval;
  (** [str(v)] for the values an f-string formats *)
  py_str : pyval -> string;
  (** [EmailMessage]: the exception raised while the message is filled in *)
  message_build : string -> pyval -> pyval -> option exn
}.

(** ** The monad of the program *)

Inductive Outcome (A : Type) : Type :=
| Returned (a : A)
| Raised (e : exn).
Arguments Returned {A} a.
Arguments Raised {A} e.

Definition M (A : Type) : Type := World -> Outcome A * World.

Definition ret {A} (a : A) : M A := fun w => (Returned a, w).

Definition bind {A B} (m : M A) (k : A -> M B) : M B :=
  fun w =>
    match m w with
    | (Returned a, w') => k a w'
    | (Raised e, w') => (Raised e, w')
    end.

Definition raise {A} (e : exn) : M A := fun w => (Raised e, w).

(** [try: m except (classes) as e: handler e] *)
Definition try_except {A} (m : M A) (catches : exn_class -> bool) (handler : exn -> M A) : M A :=
  fun w =>
    match m w with
    | (Raised e, w') => if catches (exn_cls e) then handler e w' else (Raised e, w')
    | r => r
    end.

Declare Scope py_scope.
Delimit Scope py_scope with py.
Notation "x <- m ;; k" := (bind m (fun x => k))
  (at level 100, m at level 99, k at level 200, right associativity) : py_scope.
Notation "m ;; k" := (bind m (fun _ => k))
  (at level 100, k at level 200, right associativity) : py_scope.
Local Open Scope py_scope.

Definition emit (e : event) : M unit :=
  fun w => (Returned tt, mkWorld (e :: log w) (conversation_history w)).

Definition get_log : M Log := fun w => (Returned (log w), w).

(** [print(s)] *)
Definition print (s : string) : M unit := emit (EvPrint s).

(** The events of a run from [w] to [w'], oldest first. *)
Definition events_since (w w' : World) : list event :=
  rev (firstn (length (log w') - length (log w)) (log w')).

(** ** Configuration (module level) *)

Definition SMTP_SERVER : string := "smtp.hostinger.com".
Definition SMTP_PORT : Z := 465.
Definition SMTP_USERNAME : string := "agent@writerof.ai".
Definition SMTP_PASSWORD : string := "TestPassword123!@".

Definition or_default (o : option string) (d : string) : string :=
  match o with Some s => s | None => d end.

(** [not v] for a value that is [None] or a string *)
Definition falsy_opt (o : option string) : bool :=
  match o with Some s => is_empty s | None => true end.

(** [item.get(key, 'N/A')] *)
Definition get_or_na (o : option string) : string := or_default o "N/A".

(** ** The prompts of [run_concierge_agent], in the order of the source *)

Module Prompts.

Definition prompt_extract_email (goal : string) : string :=
    "
    You are an expert at finding email addresses in text.
    Analyze the following user request and extract the email address if one is present.
    If you find an email address, respond with ONLY the email address.
    If you do not find an email address, respond with the word " ++ dq ++ "none" ++ dq ++ ".

    User request: " ++ dq ++ goal ++ dq ++ "
    ".

Definition prompt_location_check (goal : string) : string :=
    "
    You are a location-aware assistant. Analyze the user's request to see if it requires a geographical location to be answered effectively.
    For example, requests for " ++ dq ++ "restaurants," ++ dq ++ " " ++ dq ++ "weather," ++ dq ++ " or " ++ dq ++ "events" ++ dq ++ " need a location. Requests for general facts do not.

    User's request: " ++ dq ++ goal ++ dq ++ "

    Does this request need a location? Respond with only " ++ dq ++ "yes" ++ dq ++ " or " ++ dq ++ "no" ++ dq ++ ".
    ".

Definition prompt_has_location (goal : string) : string :=
    "
        Does the following user request already contain a location (like a city, state, or country)?

        Request: " ++ dq ++ goal ++ dq ++ "

        Respond with only " ++ dq ++ "yes" ++ dq ++ " or " ++ dq ++ "no" ++ dq ++ ".
        ".

Definition prompt1 (formatted_history goal : string) : string :=
    "
You are a helpful concierge agent. Your task is to understand a user's request and generate a concise, effective search query to find the information they need.

Conversation history:
---
" ++ formatted_history ++ "
---
User's latest request: " ++ dq ++ goal ++ dq ++ "

Based on the request, what is the best, simple search query for Google?
The query should be 3-5 words.
Respond with ONLY the search query itself.
".

Definition prompt2 (goal search_results : string) : string :=
    "
You are a smart web navigator. Your task is to analyze Google search results and select the most promising URLs to find the answer to a user's goal. Avoid generic homepages (like yelp.com or google.com) and prefer specific articles, lists, or maps.

User's goal: " ++ dq ++ goal ++ dq ++ "

Search Results:
---
" ++ search_results ++ "
---

Based on the user's goal and the search results, which are the top 2-3 most promising and specific URLs to browse for details?
Respond with ONLY a list of URLs, one per line.
".

Definition prompt_summarize_snippets (goal search_results : string) : string :=
    "
        You are a helpful concierge agent. The web browser is not working, but you have search result snippets.
        User's goal: " ++ dq ++ goal ++ dq ++ "
        Search Results:
        ---
        " ++ search_results ++ "
        ---
        Please provide a summary based *only* on the search result snippets. Do not suggest browsing URLs.
        ".

Definition prompt3 (goal aggregated_text : string) : string :=
    "
You are a meticulous and trustworthy concierge agent. Your primary goal is to provide a clear, concise, and, above all, ACCURATE answer to the user's request by synthesizing information from multiple sources.

User's latest request: " ++ dq ++ goal ++ dq ++ "

You have gathered the following text from one or more websites:
---
" ++ aggregated_text ++ "
---

Fact-Check and Synthesize:
Based on the information above, provide a comprehensive summary that directly answers the user's request.
Before including any business or item in your summary, you MUST verify that it meets ALL the specific criteria from the user's request (e.g., hours of operation, location, specific features).
If you cannot find explicit confirmation that a business meets a criterion, DO NOT include it in the summary. It is better to provide fewer, accurate results than more, inaccurate ones.

Format your response clearly for the user. If listing places, use bullet points.
".

Definition prompt4 (goal final_summary aggregated_text : string) : string :=
    "
You are a highly capable assistant responsible for drafting clear and detailed emails based on a research summary.

User's original request: " ++ dq ++ goal ++ dq ++ "

Here is the final summary of the research, which has been fact-checked to meet the user's criteria:
---
" ++ final_summary ++ "
---

Here is a reminder of the raw text gathered from the websites, which you can use to find details like reservation links:
---
" ++ aggregated_text ++ "
---

Your task is to decide if an email is appropriate to send to the user with this information. If it is, you must draft the email.

- If the summary contains useful, actionable information (like a list of places, contact info, etc.), then an email should be sent.
- If the summary is short, conversational, or indicates no results were found, an email is not needed.

Instructions for the email draft:
1.  Create a clear subject line that summarizes the content.
2.  The email body should be a list of the places mentioned in the final summary.
3.  For each place, provide a brief summary of what it offers and, if you can find one in the raw text, the direct link for reservations.
4.  Ensure that ONLY information that strictly matches the user's request (e.g., open on a specific day) is included.

Respond in JSON format.
If sending, the JSON should be: {" ++ dq ++ "send_email" ++ dq ++ ": true, " ++ dq ++ "subject" ++ dq ++ ": " ++ dq ++ "Your requested information" ++ dq ++ ", " ++ dq ++ "body" ++ dq ++ ": " ++ dq ++ "..." ++ dq ++ "}
If not sending, the JSON should be: {" ++ dq ++ "send_email" ++ dq ++ ": false}

Example for sending:
{
  " ++ dq ++ "send_email" ++ dq ++ ": true,
  " ++ dq ++ "subject" ++ dq ++ ": " ++ dq ++ "Your requested list of Sushi Restaurants in Seattle" ++ dq ++ ",
  " ++ dq ++ "body" ++ dq ++ ": " ++ dq ++ "Hello,

Here are the sushi restaurants that match your criteria:

*   **Shiro's Sushi:** A classic spot known for its traditional edomae sushi. Reservations: [https://www.shiros.com/reservations](https://www.shiros.com/reservations)

*   **Sushi Kashiba:** A high-end sushi experience. Reservations: [https://www.sushikashiba.com/](https://www.sushikashiba.com/)" ++ dq ++ "
}
".

End Prompts.
Import Prompts.

Section Agent.

Variable E : Env.

Definition SERPER_API_KEY : option string := environ E "SERPER_API_KEY".
Definition OLLAMA_HOST : string :=
  or_default (environ E "OLLAMA_HOST") "http://localhost:11434".
Definition OLLAMA_MODEL : string :=
  or_default (environ E "OLLAMA_MODEL") "gemma3:latest".

(** [input(prompt)] *)
Definition input (prompt : string) : M string :=
  l <- get_log ;;
  let answer := stdin_line E l prompt in
  emit (EvInput prompt answer) ;;
  ret answer.

(** *** Part 1: the tools *)

Definition format_item (item : organic_item) : string :=
  "- Title: " ++ get_or_na (it_title item) ++ nl ++
  "  Link: " ++ get_or_na (it_link item) ++ nl ++
  "  Snippet: " ++ get_or_na (it_snippet item) ++ nl ++ nl.

Definition search_web_body (query : string) : M string :=
  print ("--- Tool: Searching web for '" ++ query ++ "' ---") ;;
  if falsy_opt SERPER_API_KEY then
    print "--- DEBUG: SERPER_API_KEY is not set. ---" ;;
    ret "Error: SERPER_API_KEY is not set. Cannot perform web search."
  else
    print ("--- DEBUG: Using SERPER_API_KEY ending in '..."
           ++ take_last 4 (or_default SERPER_API_KEY "") ++ "' ---") ;;
    l <- get_log ;;
    match serper_post E l query with
    | SerperNoResponse e => ret ("Error during web search: " ++ e)
    | SerperResponse status_code text body =>
        print ("--- DEBUG: Serper API response status code: " ++ status_code ++ " ---") ;;
        print ("--- DEBUG: Serper API response text: " ++ take 500 text ++ " ... ---") ;;
        match body with
        | SerperBad e => ret ("Error during web search: " ++ e)
        | SerperOrganic [] => ret "No good search results found."
        | SerperOrganic items =>
            ret (fold_left (fun output item => output ++ format_item item)
                           (firstn 5 items) ("Search Results:" ++ nl))
        end
    end.

Definition search_web (query : string) : M string :=
  r <- search_web_body query ;;
  emit (EvSearch query r) ;;
  ret r.

Definition browse_website_body (url : string) : M string :=
  print ("--- Tool: Attempting to browse website '" ++ url ++ "' ---") ;;
  l <- get_log ;;
  match page_get E l url with
  | PageError e => ret ("Error browsing website " ++ url ++ ": " ++ e)
  | PageText text =>
      if is_empty text then ret ("Error: No text content found at " ++ url)
      else
        print ("--- Successfully browsed " ++ url ++ " ---") ;;
        ret (take 8000 text)
  end.

Definition browse_website (url : string) : M string :=
  r <- browse_website_body url ;;
  emit (EvBrowse url r) ;;
  ret r.

Definition get_current_location_body : M string :=
  print "--- Tool: Getting current location ---" ;;
  l <- get_log ;;
  match ip_api_get E l with
  | GeoError e => ret ("Error getting location: " ++ e)
  | GeoData city country =>
      if negb (falsy_opt city) && negb (falsy_opt country) then
        print ("--- Successfully found location: " ++ or_default city "" ++ ", "
               ++ or_default country "" ++ " ---") ;;
        ret (or_default city "" ++ ", " ++ or_default country "")
      else ret "Error: Could not determine location."
  end.

Definition get_current_location : M string :=
  r <- get_current_location_body ;;
  emit (EvLocate r) ;;
  ret r.

Definition smtp_configured : bool :=
  forallb truthy [PStr SMTP_SERVER; PInt SMTP_PORT; PStr SMTP_USERNAME; PStr SMTP_PASSWORD].

Definition send_email_body (to_address : string) (subject body : pyval) : M string :=
  print ("--- Tool: Sending email to '" ++ to_address ++ "' ---") ;;
  if negb smtp_configured then
    ret "Error: SMTP settings are not fully configured. Cannot send email."
  else
    match message_build E to_address subject body with
    | Some e => raise e
    | None =>
        l <- get_log ;;
        match smtp_send E l to_address subject body with
        | None => ret ("Email sent successfully to " ++ to_address ++ ".")
        | Some e => ret ("Error sending email: " ++ e)
        end
    end.

(** The call is recorded whether it returns or raises. *)
Definition send_email (to_address : string) (subject body : pyval) : M string :=
  fun w =>
    match send_email_body to_address subject body w with
    | (Returned r, w') =>
        (Returned r, mkWorld (EvSendEmail to_address subject body (inr r) :: log w')
                             (conversation_history w'))
    | (Raised e, w') =>
        (Raised e, mkWorld (EvSendEmail to_address subject body (inl e) :: log w')
                           (conversation_history w'))
    end.

(** *** Part 2: the generator *)

Definition call_gemma_ollama_body (prompt output_format : string) : M string :=
  print ("--- Thinking with local Gemma (" ++ OLLAMA_MODEL ++ ")... ---") ;;
  let payload :=
    OllamaPayload OLLAMA_MODEL prompt false
      (if String.eqb output_format "json" then Some "json" else None) in
  l <- get_log ;;
  match ollama_post E l (OLLAMA_HOST ++ "/api/generate") payload with
  | OllamaOk response => ret (or_default response "{}")
  | OllamaTimeout =>
      ret "Error: Ollama API request timed out. The model might be taking too long to respond."
  | OllamaRequestError e =>
      ret ("Error calling Ollama API: " ++ e ++ ". Is Ollama running?")
  | OllamaKeyError e response_text =>
      ret ("Error parsing Ollama response: " ++ e ++ ". Response: " ++ response_text)
  end.

Definition call_gemma_ollama (prompt output_format : string) : M string :=
  r <- call_gemma_ollama_body prompt output_format ;;
  emit (EvGenerate prompt output_format r) ;;
  ret r.


(** *** Part 3: the chain *)

(** [type(v).__name__], for the message of an [AttributeError] *)
Definition type_name (v : pyval) : string :=
  match v with
  | PNone => "NoneType"
  | PBool _ => "bool"
  | PInt _ => "int"
  | PFloat _ => "float"
  | PStr _ => "str"
  | PList _ => "list"
  | PDict _ => "dict"
  end.

(** [v.get(key)] *)
Definition py_get (v : pyval) (key : string) : M pyval :=
  match v with
  | PDict d => ret (default PNone (d !! key))
  | _ => raise (Exn AttributeError ("'" ++ type_name v ++ "' object has no attribute 'get'"))
  end.

(** [json.loads(s)] *)
Definition json_loads_call (s : string) : M pyval :=
  match json_loads E s with
  | inl msg => raise (Exn JSONDecodeError msg)
  | inr v => ret v
  end.

(** How an f-string formats a value. *)
Definition fmt (v : pyval) : string :=
  match v with PStr s => s | _ => py_str E v end.

(** Step -1: the address in the goal, or ["none"]. *)
Definition extract_email_step (goal : string) : M string :=
  reply <- call_gemma_ollama (prompt_extract_email goal) "text" ;;
  let recipient_email_from_goal := strip reply in
  if negb (contains "@" recipient_email_from_goal) then ret "none"
  else ret recipient_email_from_goal.

(** Step 0: the goal, with the current location appended when one is needed
    and missing. *)
Definition location_step (goal : string) : M string :=
  reply <- call_gemma_ollama (prompt_location_check goal) "text" ;;
  let location_needed := lower (strip reply) in
  if contains "yes" location_needed then
    reply <- call_gemma_ollama (prompt_has_location goal) "text" ;;
    let has_location := lower (strip reply) in
    if contains "no" has_location then
      print "--- User's request needs a location, and it's missing. Finding current location... ---" ;;
      current_location <- get_current_location ;;
      if negb (startswith "Error" current_location) then
        let goal := goal ++ " in " ++ current_location in
        print ("--- Updated goal with location: " ++ goal ++ " ---") ;;
        ret goal
      else ret goal
    else ret goal
  else ret goal.

(** Step 1: the search query.  [history] is the caller's list object. *)
Definition plan_query_step (goal : string) : M string :=
  fun w =>
    let formatted_history := join nl (conversation_history w) in
    (reply <- call_gemma_ollama (prompt1 formatted_history goal) "text" ;;
     ret (remove_char (ascii_of_nat 34) (strip reply))) w.

(** Step 3: the pages to read. *)
Definition select_urls (reply : string) : list string :=
  map strip (List.filter (fun url => startswith "http" (strip url))
                    (split (ascii_of_nat 10) (strip reply))).

Definition select_urls_step (goal search_results : string) : M (list string) :=
  reply <- call_gemma_ollama (prompt2 goal search_results) "text" ;;
  ret (select_urls reply).

(** Step 4: the loop over [browse_urls], appending to [all_website_texts]. *)
Fixpoint browse_step (browse_urls all_website_texts : list string) : M (list string) :=
  match browse_urls with
  | [] => ret all_website_texts
  | url :: rest =>
      text <- browse_website url ;;
      if negb (startswith "Error" text) then
        browse_step rest (app all_website_texts ["Content from " ++ url ++ ":" ++ nl ++ text])
      else
        print ("--- Skipping " ++ url ++ " due to an error. ---") ;;
        browse_step rest all_website_texts
  end.

(** Step 6, inside the [try]. *)
Definition email_try (recipient_email_from_goal email_decision_str : string) : M unit :=
  email_decision <- json_loads_call email_decision_str ;;
  send <- py_get email_decision "send_email" ;;
  if truthy send then
    subject <- py_get email_decision "subject" ;;
    body <- py_get email_decision "body" ;;
    if all2 subject body then
      print (nl ++ "--- I have drafted the following email summary for you ---" ++ nl) ;;
      print ("Subject: " ++ fmt subject ++ nl ++ nl ++ "Body:" ++ nl ++ fmt body ++ nl) ;;
      print "--------------------------------------------------------" ;;
      recipient_email <-
        (if negb (String.eqb recipient_email_from_goal "none") then
           confirm <- input ("Should I send this to the address you provided ("
                             ++ recipient_email_from_goal ++ ")? (y/n): ") ;;
           if String.eqb (lower confirm) "y" then ret recipient_email_from_goal
           else ret "none"
         else
           confirm <- input "Would you like me to email this summary to you? (y/n): " ;;
           if String.eqb (lower confirm) "y" then input "Please enter your email address: "
           else ret "none") ;;
      if negb (is_empty recipient_email) && negb (String.eqb recipient_email "none") then
        result <- send_email recipient_email subject body ;;
        print result
      else
        print "--- Okay, I will not send the email. ---"
    else ret tt
  else ret tt.

Definition caught (c : exn_class) : bool :=
  match c with JSONDecodeError | AttributeError => true | OtherError _ => false end.

Definition email_step (recipient_email_from_goal email_decision_str : string) : M unit :=
  try_except (email_try recipient_email_from_goal email_decision_str) caught
    (fun e => print ("--- Could not determine if an email should be sent due to an error: "
                     ++ exn_msg e ++ " ---")).

Definition browse_failure_message : string :=
  "I tried to browse several websites but was blocked or couldn't find any information. Please try again.".

Definition aggregate_separator : string := nl ++ nl ++ "---" ++ nl ++ nl.

Definition run_concierge_agent (goal : string) : M string :=
  recipient_email_from_goal <- extract_email_step goal ;;
  print (nl ++ "🎯 Goal: " ++ goal ++ nl) ;;
  goal <- location_step goal ;;
  search_query <- plan_query_step goal ;;
  search_results <- search_web search_query ;;
  print search_results ;;
  browse_urls <- select_urls_step goal search_results ;;
  match browse_urls with
  | [] =>
      print "--- Could not identify promising URLs to browse. Trying to summarize from search results directly. ---" ;;
      final_summary <- call_gemma_ollama (prompt_summarize_snippets goal search_results) "text" ;;
      print (nl ++ "--- Here is your summary ---" ++ nl) ;;
      print final_summary ;;
      print (nl ++ "--------------------------" ++ nl) ;;
      ret final_summary
  | _ =>
      all_website_texts <- browse_step browse_urls [] ;;
      match all_website_texts with
      | [] => ret browse_failure_message
      | _ =>
          let aggregated_text := join aggregate_separator all_website_texts in
          final_summary <- call_gemma_ollama (prompt3 goal aggregated_text) "text" ;;
          print (nl ++ "--- Here is your summary ---" ++ nl) ;;
          print final_summary ;;
          print (nl ++ "--------------------------" ++ nl) ;;
          email_decision_str <- call_gemma_ollama (prompt4 goal final_summary aggregated_text) "json" ;;
          email_step recipient_email_from_goal email_decision_str ;;
          ret final_summary
      end
  end.

(** *** Part 4: the terminal interface *)

(** [conversation_history.append(entry)] *)
Definition history_append (entry : string) : M unit :=
  fun w => (Returned tt, mkWorld (log w) (app (conversation_history w) [entry])).

(** [conversation_history = []] *)
Definition history_new : M unit :=
  fun w => (Returned tt, mkWorld (log w) []).

(** One pass through the body of [while True]: [false] after [break]. *)
Definition main_turn : M bool :=
  user_goal <- input (nl ++ "What would you like to find? " ++ nl ++ "> ") ;;
  if String.eqb (lower user_goal) "quit" || String.eqb (lower user_goal) "exit" then
    print "🤖 Goodbye!" ;;
    ret false
  else
    agent_summary <- run_concierge_agent user_goal ;;
    history_append ("User: " ++ user_goal) ;;
    history_append ("Agent: " ++ agent_summary) ;;
    ret true.

(** The loop, cut after [fuel] passes: [true] when it ended by [break]. *)
Fixpoint main_loop (fuel : nat) : M bool :=
  match fuel with
  | O => ret false
  | S fuel' =>
      continue <- main_turn ;;
      if continue then main_loop fuel' else ret true
  end.

Definition main (fuel : nat) : M bool :=
  if falsy_opt SERPER_API_KEY then
    print "🔴 FATAL ERROR: SERPER_API_KEY environment variable not set." ;;
    print "Please get a free key from https://serper.dev and set the variable." ;;
    ret true
  else
    print ("🤖 Hello! I am your Local Concierge Agent, powered by a local "
           ++ OLLAMA_MODEL ++ " model.") ;;
    print "   I can remember our conversation and browse multiple sites for you." ;;
    print "   If you configure your SMTP settings, I can also send emails." ;;
    print "   Make sure Ollama is running in the background." ;;
    print ("   Type " ++ dq ++ "quit" ++ dq ++ " or " ++ dq ++ "exit" ++ dq ++ " to end the session.") ;;
    history_new ;;
    main_loop fuel.

End Agent.

(** ** Reading the log *)

Definition generations (evs : list event) : list (string * string * string) :=
  omap (fun e => match e with EvGenerate p f r => Some (p, f, r) | _ => None end) evs.

Definition searches (evs : list event) : list (string * string) :=
  omap (fun e => match e with EvSearch q r => Some (q, r) | _ => None end) evs.

Definition browses (evs : list event) : list (string * string) :=
  omap (fun e => match e with EvBrowse u r => Some (u, r) | _ => None end) evs.

Definition locations (evs : list event) : list string :=
  omap (fun e => match e with EvLocate r => Some r | _ => None end) evs.

Definition inputs (evs : list event) : list (string * string) :=
  omap (fun e => match e with EvInput p a => Some (p, a) | _ => None end) evs.

Definition mails (evs : list event) : list (string * pyval * pyval) :=
  omap (fun e => match e with EvSendEmail t s b _ => Some (t, s, b) | _ => None end) evs.

Definition printed (evs : list event) : list string :=
  omap (fun e => match e with EvPrint s => Some s | _ => None end) evs.

(** The replies of the generator to its calls with [output_format="json"]:
    in a turn, the email decision. *)
Definition decisions (evs : list event) : list string :=
  omap (fun e => match e with
                 | EvGenerate _ f r => if String.eqb f "json" then Some r else None
                 | _ => None
                 end) evs.

(** The events that follow the first search. *)
Fixpoint after_search (evs : list event) : list event :=
  match evs with
  | [] => []
  | EvSearch _ _ :: rest => rest
  | _ :: rest => after_search rest
  end.


(** What a computation returns or raises from [w], and the events it adds. *)
Definition outcome_of {A} (m : M A) (w : World) : Outcome A := fst (m w).
Definition events_of {A} (m : M A) (w : World) : list event := events_since w (snd (m w)).

(** ** Scripted environments, for running the model *)

Module Script.

(** The generator answers its k-th call with the k-th reply, the terminal its
    k-th read with the k-th answer; pages, location and decoded JSON are
    looked up in tables. *)
Record script : Type := mkScript {
  sc_replies : list string;
  sc_answers : list string;
  sc_pages : list (string * page_outcome);
  sc_location : geo_outcome;
  sc_json : list (string * pyval)
}.

Fixpoint assoc {A} (k : string) (l : list (string * A)) : option A :=
  match l with
  | [] => None
  | (k', v) :: l' => if String.eqb k k' then Some v else assoc k l'
  end.

Definition env (s : script) : Env := {|
  environ := fun name => if String.eqb name "SERPER_API_KEY" then Some "key-1234" else None;
  stdin_line := fun l _ => nth (length (inputs l)) (sc_answers s) "";
  ollama_post := fun l _ _ => OllamaOk (nth_error (sc_replies s) (length (generations l)));
  serper_post := fun _ _ =>
    SerperResponse "200" "{}"
      (SerperOrganic [OrganicItem (Some "Sushi A") (Some "https://a.example/sushi") (Some "Open late")]);
  page_get := fun _ url =>
    match assoc url (sc_pages s) with Some o => o | None => PageError "404 Client Error" end;
  ip_api_get := fun _ => sc_location s;
  smtp_send := fun _ _ _ _ => None;
  json_loads := fun txt =>
    match assoc txt (sc_json s) with Some v => inr v | None => inl "Expecting value" end;
  py_str := fun _ => "<value>";
  message_build := fun _ _ _ => None
|}.

Definition w0 : World := mkWorld [] [].

(** An environment with other environment variables. *)
Definition with_environ (E : Env) (vars : string -> option string) : Env := {|
  environ := vars;
  stdin_line := stdin_line E;
  ollama_post := ollama_post E;
  serper_post := serper_post E;
  page_get := page_get E;
  ip_api_get := ip_api_get E;
  smtp_send := smtp_send E;
  json_loads := json_loads E;
  py_str := py_str E;
  message_build := message_build E
|}.

(** An environment whose generator gives the same outcome to every call. *)
Definition with_generator (E : Env) (o : ollama_outcome) : Env := {|
  environ := environ E;
  stdin_line := stdin_line E;
  ollama_post := fun _ _ _ => o;
  serper_post := serper_post E;
  page_get := page_get E;
  ip_api_get := ip_api_get E;
  smtp_send := smtp_send E;
  json_loads := json_loads E;
  py_str := py_str E;
  message_build := message_build E
|}.

(** An environment whose mail library behaves as given. *)
Definition with_mail (E : Env) (build : option exn) (send : option string) : Env := {|
  environ := environ E;
  stdin_line := stdin_line E;
  ollama_post := ollama_post E;
  serper_post := serper_post E;
  page_get := page_get E;
  ip_api_get := ip_api_get E;
  smtp_send := fun _ _ _ _ => send;
  json_loads := json_loads E;
  py_str := py_str E;
  message_build := fun _ _ _ => build
|}.

(** No variable is set. *)
Definition no_variables (E : Env) : Env := with_environ E (fun _ => None).

(** A page whose text begins with the word "Error". *)
Definition error_page : script :=
  mkScript [] [] [("https://a.example/errors", PageText "Error codes of the sushi API")]
           (GeoData (Some "Seattle") (Some "USA")) [].

(** A script that never matters: no reply, no answer, no page. *)
Definition blank : script := mkScript [] [] [] (GeoError "offline") [].


(** Scenario A: a location is needed and missing, and the service works. *)
Definition missing_location : script :=
  mkScript ["yes"; "no"] [] [] (GeoData (Some "Seattle") (Some "USA")) [].


(** A page is read and summarized; then the email decision and the answers
    at the terminal vary. *)
Definition answered (decision_table : list (string * pyval)) (answers : list string) : script :=
  mkScript ["none"; "no"; "best sushi"; "https://a.example/sushi"; "Sushi A is open late.";
            "DECISION"]
           answers [("https://a.example/sushi", PageText "Sushi A. Open late.")]
           (GeoError "offline") decision_table.

Definition decision_dict (fields : list (string * pyval)) : pyval :=
  PDict (list_to_map fields).

(** Scenario D: a complete draft. *)
Definition complete_draft : list (string * pyval) :=
  [("DECISION", decision_dict [("send_email", PBool true); ("subject", PStr "Sushi picks");
                               ("body", PStr "Sushi A")])].


(** Two goals, then the user leaves; neither turn finds a page to read. *)
Definition two_turns : script :=
  mkScript ["none"; "no"; "q1"; "nothing"; "Summary one.";
            "none"; "no"; "q2"; "nothing"; "Summary two."]
           ["sushi"; "ramen"; "QUIT"] [] (GeoError "offline") [].

(** The decision text "{}" decodes to the empty object. *)
Definition empty_object : script :=
  mkScript [] [] [] (GeoError "offline") [("{}", PDict ∅)].

(** The goal names an address, a page is read, the draft is complete. *)
Definition with_address (answers : list string) : script :=
  mkScript [" ann@example.com "; "no"; "best sushi"; "https://a.example/sushi";
            "Sushi A is open late."; "DECISION"]
           answers [("https://a.example/sushi", PageText "Sushi A. Open late.")]
           (GeoError "offline") complete_draft.

(** The exception a header with a line break raises. *)
Definition header_error : exn :=
  Exn (OtherError "ValueError")
      "Header values may not contain linefeed or carriage return characters".

(** The user leaves at once. *)
Definition leaves_at_once : script := mkScript [] ["Exit"; "Exit"; "Exit"] [] (GeoError "offline") [].

(** Scenario C: two pages are selected and both fetches fail. *)
Definition both_blocked : script :=
  mkScript ["none"; "no"; "best sushi";
            "https://a.example/sushi" ++ nl ++ "https://b.example/list"]
           [] [("https://b.example/list", PageText "")] (GeoError "offline") [].

End Script.

(** ** Runs

    [runs m w o evs]: started in [w], the computation [m] ends with outcome
    [o], having added the events [evs] (oldest first) to the log and left the
    history object as it was. *)

Definition after (w : World) (evs : list event) : World :=
  mkWorld (rev evs ++ log w)%list (conversation_history w).

Definition runs {A} (m : M A) (w : World) (o : Outcome A) (evs : list event) : Prop :=
  m w = (o, after w evs).

(** *** The steps of a turn, as relations on the events they add

    Each relation lists the ways one step of [run_concierge_agent] can go:
    its result and the events it adds, oldest first.  The lemmas of the
    section [StepRuns] show that every run of the step is one of them. *)

Section Shapes.

Variable E : Env.

Definition thinking : event :=
  EvPrint ("--- Thinking with local Gemma (" ++ OLLAMA_MODEL E ++ ")... ---").

Definition could_not_determine (msg : string) : event :=
  EvPrint ("--- Could not determine if an email should be sent due to an error: " ++ msg ++ " ---").

Definition reuse_prompt (recipient_email_from_goal : string) : string :=
  "Should I send this to the address you provided (" ++ recipient_email_from_goal ++ ")? (y/n): ".

Definition offer_prompt : string := "Would you like me to email this summary to you? (y/n): ".

Definition address_prompt : string := "Please enter your email address: ".

Definition draft_prints (subject body : pyval) : list event :=
  [EvPrint (nl ++ "--- I have drafted the following email summary for you ---" ++ nl);
   EvPrint ("Subject: " ++ fmt E subject ++ nl ++ nl ++ "Body:" ++ nl ++ fmt E body ++ nl);
   EvPrint "--------------------------------------------------------"].

Definition summary_prints (final_summary : string) : list event :=
  [EvPrint (nl ++ "--- Here is your summary ---" ++ nl);
   EvPrint final_summary;
   EvPrint (nl ++ "--------------------------" ++ nl)].

(** Step -1: what the recipient is, given the generator's reply. *)
Definition extracted (reply : string) : string :=
  if contains "@" (strip reply) then strip reply else "none".

(** Step 0. *)
Inductive location_run (goal : string) : string -> list event -> Prop :=
| loc_not_needed a :
    contains "yes" (lower (strip a)) = false ->
    location_run goal goal
      [thinking; EvGenerate (prompt_location_check goal) "text" a]
| loc_present a b :
    contains "yes" (lower (strip a)) = true ->
    contains "no" (lower (strip b)) = false ->
    location_run goal goal
      [thinking; EvGenerate (prompt_location_check goal) "text" a;
       thinking; EvGenerate (prompt_has_location goal) "text" b]
| loc_failed a b pr loc :
    contains "yes" (lower (strip a)) = true ->
    contains "no" (lower (strip b)) = true ->
    startswith "Error" loc = true ->
    location_run goal goal
      ([thinking; EvGenerate (prompt_location_check goal) "text" a;
        thinking; EvGenerate (prompt_has_location goal) "text" b;
        EvPrint "--- User's request needs a location, and it's missing. Finding current location... ---"]
       ++ map EvPrint pr ++ [EvLocate loc])%list
| loc_added a b pr loc :
    contains "yes" (lower (strip a)) = true ->
    contains "no" (lower (strip b)) = true ->
    startswith "Error" loc = false ->
    location_run goal (goal ++ " in " ++ loc)
      ([thinking; EvGenerate (prompt_location_check goal) "text" a;
        thinking; EvGenerate (prompt_has_location goal) "text" b;
        EvPrint "--- User's request needs a location, and it's missing. Finding current location... ---"]
       ++ map EvPrint pr
       ++ [EvLocate loc;
           EvPrint ("--- Updated goal with location: " ++ (goal ++ " in " ++ loc) ++ " ---")])%list.

(** Step 4: the pages kept, and the events, for a list of URLs. *)
Inductive browse_run : list string -> list string -> list event -> Prop :=
| browse_done : browse_run [] [] []
| browse_kept url rest pr text kept evs :
    startswith "Error" text = false ->
    browse_run rest kept evs ->
    browse_run (url :: rest) (("Content from " ++ url ++ ":" ++ nl ++ text) :: kept)
      (map EvPrint pr ++ EvBrowse url text :: evs)%list
| browse_skipped url rest pr text kept evs :
    startswith "Error" text = true ->
    browse_run rest kept evs ->
    browse_run (url :: rest) kept
      (map EvPrint pr ++ EvBrowse url text
         :: EvPrint ("--- Skipping " ++ url ++ " due to an error. ---") :: evs)%list.

(** Step 6: the recipient after the confirmation prompts. *)
Inductive recipient_run (recipient_email_from_goal : string) : string -> list event -> Prop :=
| rcp_reuse confirm :
    String.eqb recipient_email_from_goal "none" = false ->
    String.eqb (lower confirm) "y" = true ->
    recipient_run recipient_email_from_goal recipient_email_from_goal
      [EvInput (reuse_prompt recipient_email_from_goal) confirm]
| rcp_reuse_declined confirm :
    String.eqb recipient_email_from_goal "none" = false ->
    String.eqb (lower confirm) "y" = false ->
    recipient_run recipient_email_from_goal "none"
      [EvInput (reuse_prompt recipient_email_from_goal) confirm]
| rcp_fresh confirm address :
    String.eqb recipient_email_from_goal "none" = true ->
    String.eqb (lower confirm) "y" = true ->
    recipient_run recipient_email_from_goal address
      [EvInput offer_prompt confirm; EvInput address_prompt address]
| rcp_declined confirm :
    String.eqb recipient_email_from_goal "none" = true ->
    String.eqb (lower confirm) "y" = false ->
    recipient_run recipient_email_from_goal "none" [EvInput offer_prompt confirm].

(** [recipient_email and recipient_email != "none"] *)
Definition sendable (recipient_email : string) : bool :=
  negb (is_empty recipient_email) && negb (String.eqb recipient_email "none").

(** The decision as the program reads it: subject and body when the text
    decodes to a [dict] whose ["send_email"], ["subject"] and ["body"] are
    all true values. *)
Definition drafted (email_decision_str : string) : option (pyval * pyval) :=
  match json_loads E email_decision_str with
  | inr (PDict d) =>
      if truthy (default PNone (d !! "send_email"))
         && all2 (default PNone (d !! "subject")) (default PNone (d !! "body"))
      then Some (default PNone (d !! "subject"), default PNone (d !! "body"))
      else None
  | _ => None
  end.

(** Step 6: the whole [try] statement. *)
Inductive email_run (recipient_email_from_goal email_decision_str : string)
  : Outcome unit -> list event -> Prop :=
| em_bad_json msg :
    json_loads E email_decision_str = inl msg ->
    email_run recipient_email_from_goal email_decision_str (Returned tt) [could_not_determine msg]
| em_not_dict v :
    json_loads E email_decision_str = inr v ->
    (forall d, v <> PDict d) ->
    email_run recipient_email_from_goal email_decision_str (Returned tt)
      [could_not_determine ("'" ++ type_name v ++ "' object has no attribute 'get'")]
| em_no_draft d :
    json_loads E email_decision_str = inr (PDict d) ->
    drafted email_decision_str = None ->
    email_run recipient_email_from_goal email_decision_str (Returned tt) []
| em_not_sent subject body recipient evs :
    drafted email_decision_str = Some (subject, body) ->
    recipient_run recipient_email_from_goal recipient evs ->
    sendable recipient = false ->
    email_run recipient_email_from_goal email_decision_str (Returned tt)
      (draft_prints subject body ++ evs
       ++ [EvPrint "--- Okay, I will not send the email. ---"])%list
| em_sent subject body recipient evs pr result :
    drafted email_decision_str = Some (subject, body) ->
    recipient_run recipient_email_from_goal recipient evs ->
    sendable recipient = true ->
    email_run recipient_email_from_goal email_decision_str (Returned tt)
      (draft_prints subject body ++ evs ++ map EvPrint pr
       ++ [EvSendEmail recipient subject body (inr result); EvPrint result])%list
| em_send_caught subject body recipient evs pr e :
    drafted email_decision_str = Some (subject, body) ->
    recipient_run recipient_email_from_goal recipient evs ->
    sendable recipient = true ->
    caught (exn_cls e) = true ->
    email_run recipient_email_from_goal email_decision_str (Returned tt)
      (draft_prints subject body ++ evs ++ map EvPrint pr
       ++ [EvSendEmail recipient subject body (inl e); could_not_determine (exn_msg e)])%list
| em_send_raised subject body recipient evs pr e :
    drafted email_decision_str = Some (subject, body) ->
    recipient_run recipient_email_from_goal recipient evs ->
    sendable recipient = true ->
    caught (exn_cls e) = false ->
    email_run recipient_email_from_goal email_decision_str (Raised e)
      (draft_prints subject body ++ evs ++ map EvPrint pr
       ++ [EvSendEmail recipient subject body (inl e)])%list.

(** The events every turn starts with, up to the choice of pages: the
    recipient, the goal as used from step 1 on, the search results and the
    generator's list of pages. *)
Inductive prefix_run (history : list string) (goal : string)
  : string -> string -> string -> string -> list event -> Prop :=
| prefix_intro r_mail goal' evs_loc r_query pr results r_urls :
    location_run goal goal' evs_loc ->
    prefix_run history goal (extracted r_mail) goal' results r_urls
      ([thinking; EvGenerate (prompt_extract_email goal) "text" r_mail;
        EvPrint (nl ++ "🎯 Goal: " ++ goal ++ nl)]
       ++ evs_loc
       ++ [thinking; EvGenerate (prompt1 (join nl history) goal') "text" r_query]
       ++ map EvPrint pr
       ++ [EvSearch (remove_char (ascii_of_nat 34) (strip r_query)) results;
           EvPrint results;
           thinking; EvGenerate (prompt2 goal' results) "text" r_urls])%list.

(** The three exits of a turn, from the choice of pages on. *)
Inductive tail_run (recipient goal' results r_urls : string) : Outcome string -> list event -> Prop :=
| tail_fallback final_summary :
    select_urls r_urls = [] ->
    tail_run recipient goal' results r_urls (Returned final_summary)
      ([EvPrint "--- Could not identify promising URLs to browse. Trying to summarize from search results directly. ---";
        thinking; EvGenerate (prompt_summarize_snippets goal' results) "text" final_summary]
       ++ summary_prints final_summary)%list
| tail_blocked evs_browse :
    select_urls r_urls <> [] ->
    browse_run (select_urls r_urls) [] evs_browse ->
    tail_run recipient goal' results r_urls (Returned browse_failure_message) evs_browse
| tail_answered kept evs_browse final_summary decision o evs_mail :
    select_urls r_urls <> [] ->
    browse_run (select_urls r_urls) kept evs_browse ->
    kept <> [] ->
    email_run recipient decision o evs_mail ->
    tail_run recipient goal' results r_urls
      (match o with Returned _ => Returned final_summary | Raised e => Raised e end)
      (evs_browse
       ++ [thinking; EvGenerate (prompt3 goal' (join aggregate_separator kept)) "text" final_summary]
       ++ summary_prints final_summary
       ++ [thinking;
           EvGenerate (prompt4 goal' final_summary (join aggregate_separator kept)) "json" decision]
       ++ evs_mail)%list.

(** A turn. *)
Inductive turn_run (history : list string) (goal : string) : Outcome string -> list event -> Prop :=
| turn_intro recipient goal' results r_urls evs o rest :
    prefix_run history goal recipient goal' results r_urls evs ->
    tail_run recipient goal' results r_urls o rest ->
    turn_run history goal o (evs ++ rest)%list.

End Shapes.

(** *** What a log says about a step or a turn *)

(** [last l] as an option. *)
Definition last_of {A} (l : list A) : option A :=
  match rev l with x :: _ => Some x | [] => None end.

(** Step 0: whether the first classification reply says a location is
    needed, and whether the second says it is missing. *)
Definition location_needed (evs : list event) : bool :=
  match generations evs with
  | (_, _, a) :: _ => contains "yes" (lower (strip a))
  | [] => false
  end.


(** Step 1: the query made of the generator's reply: trimmed, and every
    double quote replaced by nothing. *)
Definition clean_query (reply : string) : string := remove_char (ascii_of_nat 34) (strip reply).


(** The reply of the URL-selection call: the first generation call after the
    search. *)
Definition selection_reply (evs : list event) : option string :=
  match generations (after_search evs) with
  | (_, _, r) :: _ => Some r
  | [] => None
  end.

(** The generation calls made once the pages are selected. *)
Definition later_generations (evs : list event) : list (string * string * string) :=
  tl (generations (after_search evs)).

(** The recipient extracted from the goal: read off the first generation
    call of the turn. *)
Definition recipient_from_goal (evs : list event) : string :=
  match generations evs with
  | (_, _, r) :: _ => extracted r
  | [] => "none"
  end.

(** The answer to the confirmation prompt: the first line read in the turn. *)
Definition confirmation (evs : list event) : option string :=
  match inputs evs with (_, a) :: _ => Some a | [] => None end.

Definition affirmative (answer : option string) : bool :=
  match answer with Some a => String.eqb (lower a) "y" | None => false end.

(** The address typed in after the offer was accepted: the second line read. *)
Definition entered_address (evs : list event) : option string :=
  match inputs evs with _ :: (_, a) :: _ => Some a | _ => None end.

(** The recipient the turn resolves: the one from the goal when there is
    one, the address typed in otherwise, ["none"] when neither. *)
Definition resolve (from_goal : string) (entered : option string) : string :=
  if negb (String.eqb from_goal "none") then from_goal
  else match entered with Some a => a | None => "none" end.

Definition resolved_recipient (evs : list event) : string :=
  resolve (recipient_from_goal evs) (entered_address evs).

(** The lines [search_web] prints before it sends its request. *)
Definition search_tool_line (query : string) : string :=
  "--- Tool: Searching web for '" ++ query ++ "' ---".

Definition key_debug_line (key : string) : string :=
  "--- DEBUG: Using SERPER_API_KEY ending in '..." ++ take_last 4 key ++ "' ---".

(** The text [search_web] returns for a list of organic results. *)
Definition formatted_results (items : list organic_item) : string :=
  "Search Results:" ++ nl ++ String.concat "" (map format_item (firstn 5 items)).

(** The first line [browse_website] prints, and the text it returns when the
    generator call times out. *)
Definition browse_tool_line (url : string) : string :=
  "--- Tool: Attempting to browse website '" ++ url ++ "' ---".

Definition timeout_message : string :=
  "Error: Ollama API request timed out. The model might be taking too long to respond.".

(** What [main] prints before its loop. *)
Definition greeting (E : Env) : list event :=
  [EvPrint ("🤖 Hello! I am your Local Concierge Agent, powered by a local "
            ++ OLLAMA_MODEL E ++ " model.");
   EvPrint "   I can remember our conversation and browse multiple sites for you.";
   EvPrint "   If you configure your SMTP settings, I can also send emails.";
   EvPrint "   Make sure Ollama is running in the background.";
   EvPrint ("   Type " ++ dq ++ "quit" ++ dq ++ " or " ++ dq ++ "exit" ++ dq
            ++ " to end the session.")].

(** The prompt of the main loop, and the test that ends it. *)
Definition main_prompt : string := nl ++ "What would you like to find? " ++ nl ++ "> ".

Definition quits (user_goal : string) : bool :=
  String.eqb (lower user_goal) "quit" || String.eqb (lower user_goal) "exit".

(** The two entries a completed turn adds to the history. *)
Definition turn_entries (turn : string * string) : list string :=
  ["User: " ++ fst turn; "Agent: " ++ snd turn].

(** The events before the first read from the terminal. *)
Fixpoint before_input (evs : list event) : list event :=
  match evs with
  | [] => []
  | EvInput _ _ :: _ => []
  | e :: rest => e :: before_input rest
  end.

(** The events after the email-decision call. *)
Fixpoint after_decision (evs : list event) : list event :=
  match evs with
  | [] => []
  | EvGenerate _ f _ :: rest => if String.eqb f "json" then rest else after_decision rest
  | _ :: rest => after_decision rest
  end.

(** A decision text that does not decode to a [dict], or decodes to one
    that says to send while its subject or its body is missing or empty. *)
Definition malformed (E : Env) (email_decision_str : string) : Prop :=
  match json_loads E email_decision_str with
  | inl _ => True
  | inr (PDict d) =>
      truthy (default PNone (d !! "send_email")) = true
      /\ (truthy (default PNone (d !! "subject")) = false
          \/ truthy (default PNone (d !! "body")) = false)
  | inr _ => True
  end.

(** The draft of the turn: subject and body of the email decision, when
    there is one and it says to send, with both present. *)
Definition draft_of (E : Env) (evs : list event) : option (pyval * pyval) :=
  match decisions evs with
  | [d] => drafted E d
  | _ => None
  end.

(** The page texts kept from the fetches, in the order of the fetches. *)
Definition kept_pages (fetched : list (string * string)) : list string :=
  map (fun p => "Content from " ++ fst p ++ ":" ++ nl ++ snd p)
      (List.filter (fun p => negb (startswith "Error" (snd p))) fetched).

(** * Properties *)

(** ** Strings *)

Example strip_ex : strip "  yes " = "yes".
Proof. reflexivity. Qed.

Example split_ex : split (ascii_of_nat 10) ("a" ++ nl ++ nl ++ "b") = ["a"; ""; "b"].
Proof. reflexivity. Qed.

Example take_last_ex : take_last 4 "abcdefg" = "defg" /\ take_last 4 "ab" = "ab".
Proof. split; reflexivity. Qed.

(** ** Composing runs *)

Lemma after_nil w : after w [] = w.
Proof. destruct w; reflexivity. Qed.

Lemma after_app w a b : after (after w a) b = after w (a ++ b)%list.
Proof.
  unfold after; cbn [log conversation_history].
  now rewrite rev_app_distr, <- app_assoc.
Qed.

Lemma events_since_after w evs : events_since w (after w evs) = evs.
Proof.
  unfold events_since, after; cbn [log].
  rewrite length_app, Nat.add_sub, firstn_app, Nat.sub_diag, firstn_all, firstn_O, app_nil_r.
  apply rev_involutive.
Qed.

Lemma events_since_log w w' evs :
  log w' = (rev evs ++ log w)%list -> events_since w w' = evs.
Proof.
  intros H. rewrite <- (events_since_after w evs).
  unfold events_since. now rewrite H.
Qed.

Lemma runs_events {A} (m : M A) w o evs :
  runs m w o evs -> fst (m w) = o /\ events_since w (snd (m w)) = evs
                    /\ conversation_history (snd (m w)) = conversation_history w.
Proof.
  unfold runs; intros ->; cbn [fst snd].
  split; [reflexivity | split; [apply events_since_after | reflexivity]].
Qed.

Lemma runs_ret {A} (a : A) w : runs (ret a) w (Returned a) [].
Proof. unfold runs, ret. now rewrite after_nil. Qed.

Lemma runs_raise {A} e w : runs (@raise A e) w (Raised e) [].
Proof. unfold runs, raise. now rewrite after_nil. Qed.

Lemma runs_bind {A B} (m : M A) (k : A -> M B) w a e1 o e2 :
  runs m w (Returned a) e1 ->
  runs (k a) (after w e1) o e2 ->
  runs (bind m k) w o (e1 ++ e2)%list.
Proof.
  unfold runs, bind; intros -> ->. now rewrite after_app.
Qed.

Lemma runs_bind_raised {A B} (m : M A) (k : A -> M B) w e e1 :
  runs m w (Raised e) e1 -> runs (bind m k) w (Raised e) e1.
Proof. unfold runs, bind; now intros ->. Qed.

Lemma runs_print s w : runs (print s) w (Returned tt) [EvPrint s].
Proof. reflexivity. Qed.

Lemma runs_emit e w : runs (emit e) w (Returned tt) [e].
Proof. reflexivity. Qed.

Lemma runs_eq {A} (m : M A) w o evs evs' :
  runs m w o evs -> evs = evs' -> runs m w o evs'.
Proof. now intros H <-. Qed.

(** ** The tools, as runs *)

Ltac run_unfold :=
  unfold runs, bind, print, emit, get_log, ret, raise, after;
  cbv beta iota; cbn [log conversation_history fst snd].

Section ToolRuns.

Variable E : Env.

Lemma input_runs prompt w :
  exists answer, runs (input E prompt) w (Returned answer) [EvInput prompt answer].
Proof. eexists. unfold input. run_unfold. reflexivity. Qed.

Lemma call_gemma_ollama_runs prompt output_format w :
  exists reply,
    runs (call_gemma_ollama E prompt output_format) w (Returned reply)
         [thinking E; EvGenerate prompt output_format reply].
Proof.
  unfold call_gemma_ollama, call_gemma_ollama_body, thinking. run_unfold.
  destruct (ollama_post E _ _ _); eexists; reflexivity.
Qed.

Lemma search_web_runs query w :
  exists result pr,
    runs (search_web E query) w (Returned result) (map EvPrint pr ++ [EvSearch query result])%list.
Proof.
  unfold search_web, search_web_body. run_unfold.
  destruct (falsy_opt (SERPER_API_KEY E)).
  - eexists _, [_; _]. reflexivity.
  - run_unfold. destruct (serper_post E _ _) as [e | code text [e | [| it its]]].
    + eexists _, [_; _]. reflexivity.
    + eexists _, [_; _; _; _]. reflexivity.
    + eexists _, [_; _; _; _]. reflexivity.
    + eexists _, [_; _; _; _]. reflexivity.
Qed.

Lemma browse_website_runs url w :
  exists result pr,
    runs (browse_website E url) w (Returned result) (map EvPrint pr ++ [EvBrowse url result])%list.
Proof.
  unfold browse_website, browse_website_body. run_unfold.
  destruct (page_get E _ _) as [e | text].
  - eexists _, [_]. reflexivity.
  - destruct (is_empty text).
    + eexists _, [_]. reflexivity.
    + eexists _, [_; _]. reflexivity.
Qed.

Lemma get_current_location_runs w :
  exists result pr,
    runs (get_current_location E) w (Returned result) (map EvPrint pr ++ [EvLocate result])%list.
Proof.
  unfold get_current_location, get_current_location_body. run_unfold.
  destruct (ip_api_get E _) as [e | city country].
  - eexists _, [_]. reflexivity.
  - destruct (negb (falsy_opt city) && negb (falsy_opt country)).
    + eexists _, [_; _]. reflexivity.
    + eexists _, [_]. reflexivity.
Qed.

(** [send_email] returns or raises; either way exactly one call is logged. *)
Lemma send_email_runs to_address subject body w :
  exists pr,
    (exists r, runs (send_email E to_address subject body) w (Returned r)
                 (map EvPrint pr ++ [EvSendEmail to_address subject body (inr r)])%list)
    \/ (exists e, runs (send_email E to_address subject body) w (Raised e)
                 (map EvPrint pr ++ [EvSendEmail to_address subject body (inl e)])%list).
Proof.
  exists ["--- Tool: Sending email to '" ++ to_address ++ "' ---"].
  unfold send_email, send_email_body. run_unfold.
  destruct (negb smtp_configured).
  - left. eexists. reflexivity.
  - destruct (message_build E _ _ _) as [e |].
    + right. eexists. reflexivity.
    + left. run_unfold. destruct (smtp_send E _ _ _ _); eexists; reflexivity.
Qed.

End ToolRuns.

(** ** The steps, as runs *)

Ltac list_eq := repeat rewrite <- app_assoc; rewrite ?app_nil_r; reflexivity.
Ltac after_run H := eapply runs_bind; [exact H |].
Ltac after_print := eapply runs_bind; [apply runs_print |].

Section StepRuns.

Variable E : Env.

Lemma extract_email_step_runs goal w :
  exists reply,
    runs (extract_email_step E goal) w (Returned (extracted reply))
         [thinking E; EvGenerate (prompt_extract_email goal) "text" reply].
Proof.
  destruct (call_gemma_ollama_runs E (prompt_extract_email goal) "text" w) as [r Hr].
  exists r. unfold extract_email_step, extracted.
  eapply runs_eq; [after_run Hr | apply app_nil_r].
  destruct (contains "@" (strip r)); apply runs_ret.
Qed.

Lemma location_step_runs goal w :
  exists goal' evs,
    runs (location_step E goal) w (Returned goal') evs /\ location_run E goal goal' evs.
Proof.
  unfold location_step.
  destruct (call_gemma_ollama_runs E (prompt_location_check goal) "text" w) as [a Ha].
  destruct (contains "yes" (lower (strip a))) eqn:Hyes.
  2:{ eexists _, _; split; [| apply loc_not_needed; eassumption].
      eapply runs_eq; [after_run Ha; rewrite Hyes; apply runs_ret | list_eq]. }
  destruct (call_gemma_ollama_runs E (prompt_has_location goal) "text"
              (after w [thinking E; EvGenerate (prompt_location_check goal) "text" a]))
    as [b Hb].
  destruct (contains "no" (lower (strip b))) eqn:Hno.
  2:{ eexists _, _; split; [| apply loc_present; eassumption].
      eapply runs_eq;
        [after_run Ha; rewrite Hyes; after_run Hb; rewrite Hno; apply runs_ret | list_eq]. }
  match type of Hb with runs _ ?w1 _ ?e1 =>
    destruct (get_current_location_runs E
                (after (after w1 e1)
                   [EvPrint "--- User's request needs a location, and it's missing. Finding current location... ---"]))
      as (loc & pr & Hloc)
  end.
  destruct (startswith "Error" loc) eqn:Herr.
  - eexists _, _; split; [| apply loc_failed with (pr := pr); eassumption].
    eapply runs_eq;
      [after_run Ha; rewrite Hyes; after_run Hb; rewrite Hno; after_print; after_run Hloc;
       rewrite Herr; apply runs_ret | list_eq].
  - eexists _, _; split; [| apply loc_added with (pr := pr); eassumption].
    eapply runs_eq;
      [after_run Ha; rewrite Hyes; after_run Hb; rewrite Hno; after_print; after_run Hloc;
       rewrite Herr; cbn [negb]; after_print; apply runs_ret | list_eq].
Qed.

Lemma plan_query_step_runs goal w :
  exists reply,
    runs (plan_query_step E goal) w (Returned (remove_char (ascii_of_nat 34) (strip reply)))
         [thinking E; EvGenerate (prompt1 (join nl (conversation_history w)) goal) "text" reply].
Proof.
  destruct (call_gemma_ollama_runs E (prompt1 (join nl (conversation_history w)) goal) "text" w)
    as [r Hr].
  exists r. unfold plan_query_step.
  change (runs (fun w0 => ?f w0) w ?o ?e) with (runs (f) w o e).
  eapply runs_eq; [| apply app_nil_r].
  unfold runs. cbv beta. fold (runs (bind (call_gemma_ollama E (prompt1 (join nl (conversation_history w)) goal) "text") (fun reply => ret (remove_char (ascii_of_nat 34) (strip reply)))) w (Returned (remove_char (ascii_of_nat 34) (strip r))) ([thinking E; EvGenerate (prompt1 (join nl (conversation_history w)) goal) "text" r] ++ [])%list).
  after_run Hr. apply runs_ret.
Qed.

Lemma select_urls_step_runs goal search_results w :
  exists reply,
    runs (select_urls_step E goal search_results) w (Returned (select_urls reply))
         [thinking E; EvGenerate (prompt2 goal search_results) "text" reply].
Proof.
  destruct (call_gemma_ollama_runs E (prompt2 goal search_results) "text" w) as [r Hr].
  exists r. unfold select_urls_step.
  eapply runs_eq; [after_run Hr; apply runs_ret | apply app_nil_r].
Qed.

Lemma browse_step_runs browse_urls : forall all_website_texts w,
  exists kept evs,
    runs (browse_step E browse_urls all_website_texts) w
         (Returned (all_website_texts ++ kept)%list) evs
    /\ browse_run browse_urls kept evs.
Proof.
  induction browse_urls as [| url rest IH]; intros acc w.
  - exists [], []. split; [| constructor].
    rewrite app_nil_r. apply runs_ret.
  - cbn [browse_step].
    destruct (browse_website_runs E url w) as (text & pr & Ht).
    destruct (startswith "Error" text) eqn:Herr.
    + match type of Ht with runs _ _ _ ?e1 =>
        destruct (IH acc (after (after w e1)
                            [EvPrint ("--- Skipping " ++ url ++ " due to an error. ---")]))
          as (kept & evs & Hrun & Hrel)
      end.
      eexists _, _; split; [| apply browse_skipped with (pr := pr); eassumption].
      eapply runs_eq; [after_run Ht; rewrite Herr; after_print; exact Hrun | list_eq].
    + match type of Ht with runs _ _ _ ?e1 =>
        destruct (IH (app acc ["Content from " ++ url ++ ":" ++ nl ++ text]) (after w e1))
          as (kept & evs & Hrun & Hrel)
      end.
      eexists _, _; split; [| apply browse_kept with (pr := pr); eassumption].
      rewrite <- app_assoc in Hrun.
      eapply runs_eq; [after_run Ht; rewrite Herr; cbn [negb]; exact Hrun | list_eq].
Qed.

Lemma runs_try_returned {A} (m : M A) catches handler w a evs :
  runs m w (Returned a) evs -> runs (try_except m catches handler) w (Returned a) evs.
Proof. unfold runs, try_except; now intros ->. Qed.

Lemma runs_try_caught {A} (m : M A) catches handler w e e1 o e2 :
  runs m w (Raised e) e1 ->
  catches (exn_cls e) = true ->
  runs (handler e) (after w e1) o e2 ->
  runs (try_except m catches handler) w o (e1 ++ e2)%list.
Proof. unfold runs, try_except; intros -> -> ->. now rewrite after_app. Qed.

Lemma runs_try_uncaught {A} (m : M A) catches handler w e evs :
  runs m w (Raised e) evs ->
  catches (exn_cls e) = false ->
  runs (try_except m catches handler) w (Raised e) evs.
Proof. unfold runs, try_except; now intros -> ->. Qed.

Lemma recipient_runs recipient_email_from_goal w :
  exists recipient evs,
    runs (if negb (String.eqb recipient_email_from_goal "none") then
            bind (input E (reuse_prompt recipient_email_from_goal))
                 (fun confirm => if String.eqb (lower confirm) "y"
                                 then ret recipient_email_from_goal else ret "none")
          else
            bind (input E offer_prompt)
                 (fun confirm => if String.eqb (lower confirm) "y"
                                 then input E address_prompt else ret "none"))
         w (Returned recipient) evs
    /\ recipient_run recipient_email_from_goal recipient evs.
Proof.
  destruct (String.eqb recipient_email_from_goal "none") eqn:Hnone; cbn [negb].
  - destruct (input_runs E offer_prompt w) as [confirm Hc].
    destruct (String.eqb (lower confirm) "y") eqn:Hy.
    + destruct (input_runs E address_prompt (after w [EvInput offer_prompt confirm]))
        as [address Ha].
      eexists _, _; split; [| apply rcp_fresh; eassumption].
      eapply runs_eq; [after_run Hc; rewrite Hy; exact Ha | list_eq].
    + eexists _, _; split; [| apply rcp_declined; eassumption].
      eapply runs_eq; [after_run Hc; rewrite Hy; apply runs_ret | list_eq].
  - destruct (input_runs E (reuse_prompt recipient_email_from_goal) w) as [confirm Hc].
    destruct (String.eqb (lower confirm) "y") eqn:Hy.
    + eexists _, _; split; [| apply rcp_reuse; eassumption].
      eapply runs_eq; [after_run Hc; rewrite Hy; apply runs_ret | list_eq].
    + eexists _, _; split; [| apply rcp_reuse_declined; eassumption].
      eapply runs_eq; [after_run Hc; rewrite Hy; apply runs_ret | list_eq].
Qed.

Lemma email_step_runs recipient_email_from_goal email_decision_str w :
  exists o evs,
    runs (email_step E recipient_email_from_goal email_decision_str) w o evs
    /\ email_run E recipient_email_from_goal email_decision_str o evs.
Proof.
  unfold email_step, email_try, json_loads_call.
  destruct (json_loads E email_decision_str) as [msg | v] eqn:Hjson.
  { eexists _, _; split; [| apply em_bad_json; eassumption].
    eapply runs_eq;
      [eapply runs_try_caught;
       [apply runs_bind_raised, runs_raise | reflexivity | apply runs_print] | list_eq]. }
  assert (Hnd : (exists d, v = PDict d) \/ (forall d, v <> PDict d)).
  { destruct v; try (right; discriminate). left; eauto. }
  destruct Hnd as [[d ->] | Hnd].
  2:{ eexists _, _; split; [| apply em_not_dict; eassumption].
      eapply runs_eq;
        [eapply runs_try_caught;
         [after_run (runs_ret v w); apply runs_bind_raised;
          destruct v; try apply runs_raise; exfalso; eapply Hnd; reflexivity
         | reflexivity | apply runs_print] | list_eq]. }
  set (subject := default PNone (d !! "subject")).
  set (body := default PNone (d !! "body")).
  destruct (truthy (default PNone (d !! "send_email")) && all2 subject body) eqn:Hd.
  2:{ eexists _, _; split.
      2:{ eapply em_no_draft; [eassumption |]. unfold drafted. rewrite Hjson.
          fold subject body. now rewrite Hd. }
      eapply runs_eq;
        [apply runs_try_returned; after_run (runs_ret (PDict d) w);
         eapply runs_bind; [apply runs_ret |] | list_eq].
      fold subject body.
      destruct (truthy (default PNone (d !! "send_email"))); [| apply runs_ret].
      eapply runs_eq; [eapply runs_bind; [apply runs_ret |];
                       eapply runs_bind; [apply runs_ret |] | list_eq].
      fold subject body. cbn [andb] in Hd. rewrite Hd. apply runs_ret. }
  apply andb_true_iff in Hd as [Hsend Hall].
  assert (Hdr : drafted E email_decision_str = Some (subject, body)).
  { unfold drafted. rewrite Hjson. fold subject body. now rewrite Hsend, Hall. }
  destruct (recipient_runs recipient_email_from_goal (after w (draft_prints E subject body)))
    as (recipient & evs_r & Hr & Hrel).
  assert (Hpre : forall (k : string -> M unit) o evs,
    runs (k recipient) (after (after w (draft_prints E subject body)) evs_r) o evs ->
    runs (bind (json_loads_call E email_decision_str) (fun email_decision =>
          bind (py_get email_decision "send_email") (fun send =>
          if truthy send then
            bind (py_get email_decision "subject") (fun subject =>
            bind (py_get email_decision "body") (fun body =>
            if all2 subject body then
              bind (print (nl ++ "--- I have drafted the following email summary for you ---" ++ nl)) (fun _ =>
              bind (print ("Subject: " ++ fmt E subject ++ nl ++ nl ++ "Body:" ++ nl ++ fmt E body ++ nl)) (fun _ =>
              bind (print "--------------------------------------------------------") (fun _ =>
              bind (if negb (String.eqb recipient_email_from_goal "none") then
                      bind (input E (reuse_prompt recipient_email_from_goal))
                           (fun confirm => if String.eqb (lower confirm) "y"
                                           then ret recipient_email_from_goal else ret "none")
                    else
                      bind (input E offer_prompt)
                           (fun confirm => if String.eqb (lower confirm) "y"
                                           then input E address_prompt else ret "none")) k)))
            else ret tt))
          else ret tt))) w o (draft_prints E subject body ++ evs_r ++ evs)%list).
  { intros k o evs Hk. unfold json_loads_call. rewrite Hjson.
    eapply runs_eq;
      [after_run (runs_ret (PDict d) w); eapply runs_bind; [apply runs_ret |];
       rewrite Hsend;
       eapply runs_bind; [apply runs_ret |]; eapply runs_bind; [apply runs_ret |];
       fold subject body; rewrite Hall;
       after_print; after_print; after_print; after_run Hr; exact Hk
      | list_eq]. }
  unfold json_loads_call in Hpre. rewrite Hjson in Hpre.
  destruct (sendable recipient) eqn:Hs.
  2:{ eexists _, _; split; [| eapply em_not_sent; eassumption].
      apply runs_try_returned. apply Hpre. fold (sendable recipient). rewrite Hs.
      apply runs_print. }
  destruct (send_email_runs E recipient subject body
              (after (after w (draft_prints E subject body)) evs_r))
    as (pr & [[result Hsent] | [e Hsent]]).
  - eexists _, _; split; [| eapply em_sent with (pr := pr); eassumption].
    apply runs_try_returned. apply Hpre. fold (sendable recipient). rewrite Hs.
    eapply runs_eq; [after_run Hsent; apply runs_print | list_eq].
  - destruct (caught (exn_cls e)) eqn:Hc.
    + eexists _, _; split; [| eapply em_send_caught with (pr := pr); eassumption].
      eapply runs_eq;
        [eapply runs_try_caught;
         [apply Hpre; fold (sendable recipient); rewrite Hs;
          apply runs_bind_raised; exact Hsent
         | exact Hc | apply runs_print]
        | list_eq].
    + eexists _, _; split; [| eapply em_send_raised with (pr := pr); eassumption].
      apply runs_try_uncaught; [| exact Hc].
      apply Hpre. fold (sendable recipient). rewrite Hs.
      apply runs_bind_raised; exact Hsent.
Qed.

End StepRuns.

(** ** A turn, as a run *)

Lemma history_after w evs : conversation_history (after w evs) = conversation_history w.
Proof. reflexivity. Qed.

Ltac wnorm := rewrite ?after_app, <- ?app_assoc; cbn [app].
Ltac wnorm_in H := rewrite ?after_app, <- ?app_assoc in H; cbn [app] in H.
Ltac run_with H := wnorm_in H; wnorm.

Ltac next_world H k :=
  match type of H with runs _ ?w _ ?e => k (after w e) end.

Section TurnRuns.

Variable E : Env.

(** Steps -1 to 3, which every turn goes through. *)
Lemma prefix_runs goal w (k : string -> string -> string -> list string -> M string) :
  exists recipient goal' results r_urls evs,
    prefix_run E (conversation_history w) goal recipient goal' results r_urls evs
    /\ forall o evs',
         runs (k recipient goal' results (select_urls r_urls)) (after w evs) o evs' ->
         runs (bind (extract_email_step E goal) (fun recipient_email_from_goal =>
               bind (print (nl ++ "🎯 Goal: " ++ goal ++ nl)) (fun _ =>
               bind (location_step E goal) (fun goal =>
               bind (plan_query_step E goal) (fun search_query =>
               bind (search_web E search_query) (fun search_results =>
               bind (print search_results) (fun _ =>
               bind (select_urls_step E goal search_results) (fun browse_urls =>
               k recipient_email_from_goal goal search_results browse_urls))))))))
              w o (evs ++ evs')%list.
Proof.
  destruct (extract_email_step_runs E goal w) as [r_mail H1].
  next_world H1 ltac:(fun w1 =>
    pose proof (runs_print (nl ++ "🎯 Goal: " ++ goal ++ nl) w1) as H2).
  next_world H2 ltac:(fun w2 =>
    destruct (location_step_runs E goal w2) as (goal' & evs_loc & H3 & Hloc)).
  next_world H3 ltac:(fun w3 =>
    destruct (plan_query_step_runs E goal' w3) as [r_query H4]).
  rewrite !history_after in H4.
  next_world H4 ltac:(fun w4 =>
    destruct (search_web_runs E (remove_char (ascii_of_nat 34) (strip r_query)) w4)
      as (results & pr & H5)).
  next_world H5 ltac:(fun w5 => pose proof (runs_print results w5) as H6).
  next_world H6 ltac:(fun w6 =>
    destruct (select_urls_step_runs E goal' results w6) as [r_urls H7]).
  eexists _, _, _, _, _; split;
    [exact (prefix_intro E _ goal r_mail goal' evs_loc r_query pr results r_urls Hloc) |].
  intros o evs' Hk.
  eapply runs_eq.
  - after_run H1; after_run H2; after_run H3; after_run H4; after_run H5; after_run H6;
      after_run H7.
    match type of Hk with runs _ ?wk _ _ =>
      match goal with |- runs _ ?w' _ _ =>
        replace w' with wk; [exact Hk | rewrite !after_app; f_equal; list_eq]
      end
    end.
  - list_eq.
Qed.

(** Every run of a turn is one of the three exits of [turn_run]. *)
Lemma run_concierge_agent_runs goal w :
  exists o evs,
    runs (run_concierge_agent E goal) w o evs
    /\ turn_run E (conversation_history w) goal o evs.
Proof.
  unfold run_concierge_agent.
  destruct (prefix_runs goal w
              (fun recipient_email_from_goal goal search_results browse_urls =>
                 match browse_urls with
                 | [] =>
                     bind (print "--- Could not identify promising URLs to browse. Trying to summarize from search results directly. ---") (fun _ =>
                     bind (call_gemma_ollama E (prompt_summarize_snippets goal search_results) "text") (fun final_summary =>
                     bind (print (nl ++ "--- Here is your summary ---" ++ nl)) (fun _ =>
                     bind (print final_summary) (fun _ =>
                     bind (print (nl ++ "--------------------------" ++ nl)) (fun _ =>
                     ret final_summary)))))
                 | _ =>
                     bind (browse_step E browse_urls []) (fun all_website_texts =>
                     match all_website_texts with
                     | [] => ret browse_failure_message
                     | _ =>
                         let aggregated_text := join aggregate_separator all_website_texts in
                         bind (call_gemma_ollama E (prompt3 goal aggregated_text) "text") (fun final_summary =>
                         bind (print (nl ++ "--- Here is your summary ---" ++ nl)) (fun _ =>
                         bind (print final_summary) (fun _ =>
                         bind (print (nl ++ "--------------------------" ++ nl)) (fun _ =>
                         bind (call_gemma_ollama E (prompt4 goal final_summary aggregated_text) "json") (fun email_decision_str =>
                         bind (email_step E recipient_email_from_goal email_decision_str) (fun _ =>
                         ret final_summary))))))
                     end)
                 end))
    as (recipient & goal' & results & r_urls & evs & Hpre & Hk).
  set (w1 := after w evs) in *.
  destruct (select_urls r_urls) as [| url urls] eqn:Hurls.
  - (* no page chosen: summarize from the snippets *)
    next_world (runs_print "--- Could not identify promising URLs to browse. Trying to summarize from search results directly. ---" w1)
      ltac:(fun w2 =>
        destruct (call_gemma_ollama_runs E (prompt_summarize_snippets goal' results) "text" w2)
          as [final_summary Hs]).
    eexists _, _; split;
      [| exact (turn_intro E _ goal _ _ _ _ _ _ _ Hpre
                  (tail_fallback E recipient goal' results r_urls final_summary Hurls))].
    apply Hk.
    eapply runs_eq;
      [after_print; after_run Hs; after_print; after_print; after_print; apply runs_ret
      | list_eq].
  - destruct (browse_step_runs E (url :: urls) [] w1) as (kept & evs_b & Hb & Hrel).
    cbn [app] in Hb. rewrite <- Hurls in Hrel.
    assert (Hne : select_urls r_urls <> []) by (rewrite Hurls; discriminate).
    destruct kept as [| page pages] eqn:Hkept.
    + (* every page failed *)
      eexists _, _; split;
        [| exact (turn_intro E _ goal _ _ _ _ _ _ _ Hpre
                    (tail_blocked E recipient goal' results r_urls evs_b Hne Hrel))].
      apply Hk.
      eapply runs_eq; [after_run Hb; apply runs_ret | list_eq].
    + rewrite <- Hkept in *.
      assert (Hkne : kept <> []) by (rewrite Hkept; discriminate).
      next_world Hb ltac:(fun w2 =>
        destruct (call_gemma_ollama_runs E (prompt3 goal' (join aggregate_separator kept)) "text" w2)
          as [final_summary Hs]).
      next_world Hs ltac:(fun w3 =>
        destruct (call_gemma_ollama_runs E
                    (prompt4 goal' final_summary (join aggregate_separator kept)) "json"
                    (after (after w3 (summary_prints final_summary)) []))
          as [decision Hd]).
      rewrite after_nil in Hd.
      next_world Hd ltac:(fun w4 =>
        destruct (email_step_runs E recipient decision w4) as (o & evs_m & Hm & Hmrel)).
      eexists _, _; split;
        [| exact (turn_intro E _ goal _ _ _ _ _ _ _ Hpre
                    (tail_answered E recipient goal' results r_urls kept evs_b
                       final_summary decision o evs_m Hne Hrel Hkne Hmrel))].
      apply Hk.
      eapply runs_eq.
      * after_run Hb. rewrite Hkept at 1. cbv zeta. after_run Hs.
        after_print; after_print; after_print.
        unfold summary_prints in Hd, Hm.
        run_with Hd. after_run Hd. run_with Hm.
        destruct o as [[] | e].
        -- eapply runs_eq; [after_run Hm; apply runs_ret | apply app_nil_r].
        -- apply runs_bind_raised. exact Hm.
      * unfold summary_prints. list_eq.
Qed.

End TurnRuns.

(** ** Reading the log of a step *)

Lemma omap_prints {A} (f : event -> option A) pr :
  (forall s, f (EvPrint s) = None) -> omap f (map EvPrint pr) = [].
Proof.
  intros Hf. induction pr as [| s pr IH]; [reflexivity |].
  cbn [map omap list_omap]. rewrite Hf. exact IH.
Qed.

Lemma text_is_not_json : String.eqb "text" "json" = false.
Proof. reflexivity. Qed.

Lemma json_is_json : String.eqb "json" "json" = true.
Proof. reflexivity. Qed.

(** Pushes an observer through the appends and conses of an event list. *)
Ltac obs :=
  unfold generations, searches, browses, locations, inputs, mails, printed, decisions,
    draft_prints, summary_prints, thinking, could_not_determine in *;
  repeat (rewrite ?omap_app, ?(omap_prints _ _ (fun _ => eq_refl));
          cbn [omap list_omap app];
          rewrite ?text_is_not_json, ?json_is_json).

Section Observers.

Variable E : Env.

Lemma location_run_quiet goal goal' evs :
  location_run E goal goal' evs ->
  mails evs = [] /\ inputs evs = [] /\ browses evs = [] /\ searches evs = []
  /\ decisions evs = [].
Proof. destruct 1; obs; auto 10. Qed.

Lemma browse_run_quiet urls kept evs :
  browse_run urls kept evs ->
  mails evs = [] /\ inputs evs = [] /\ generations evs = [] /\ searches evs = []
  /\ decisions evs = [] /\ locations evs = [].
Proof.
  induction 1 as [| url rest pr text kept evs Hok Hrun IH | url rest pr text kept evs Hok Hrun IH].
  - obs; auto 10.
  - destruct IH as (? & ? & ? & ? & ? & ?); obs; auto 10.
  - destruct IH as (? & ? & ? & ? & ? & ?); obs; auto 10.
Qed.

Lemma recipient_run_quiet from_goal recipient evs :
  recipient_run from_goal recipient evs ->
  mails evs = [] /\ generations evs = [] /\ browses evs = [] /\ searches evs = []
  /\ decisions evs = [] /\ locations evs = [].
Proof. destruct 1; obs; auto 10. Qed.

Lemma email_run_quiet from_goal decision o evs :
  email_run E from_goal decision o evs ->
  generations evs = [] /\ browses evs = [] /\ searches evs = []
  /\ decisions evs = [] /\ locations evs = [].
Proof.
  destruct 1;
    try match goal with H : recipient_run _ _ _ |- _ =>
      apply recipient_run_quiet in H; destruct H as (? & ? & ? & ? & ? & ?) end;
    obs; repeat match goal with H : omap _ _ = [] |- _ => rewrite H end; auto 10.
Qed.

End Observers.

(** ** Trimming keeps a piece of the text *)

Lemma startswith_app p s t : startswith p s = true -> startswith p (s ++ t) = true.
Proof.
  revert s; induction p as [| a p IH]; intros s H; [reflexivity |].
  destruct s as [| b s]; [discriminate H |].
  change (String b s ++ t) with (String b (s ++ t)).
  cbn [startswith] in *.
  apply andb_true_iff in H as [Ha Hp].
  rewrite Ha, (IH _ Hp). reflexivity.
Qed.

Lemma contains_app_l p s t : contains p s = true -> contains p (s ++ t) = true.
Proof.
  induction s as [| c s IH].
  - cbn [contains]. rewrite orb_false_r. intros H. destruct p; [| discriminate H].
    destruct t; reflexivity.
  - change (String c s ++ t) with (String c (s ++ t)). cbn [contains].
    intros [H | H]%orb_true_iff.
    + apply (startswith_app _ _ t) in H.
      change (String c s ++ t) with (String c (s ++ t)) in H.
      rewrite H. reflexivity.
    + rewrite (IH H). apply orb_true_r.
Qed.

Lemma contains_app_r p s t : contains p s = true -> contains p (t ++ s) = true.
Proof.
  intros H. induction t as [| c t IH]; [exact H |].
  change (String c t ++ s) with (String c (t ++ s)).
  cbn [contains]. rewrite IH. apply orb_true_r.
Qed.




(** ** C7: the recipient taken from the goal *)


(** ** The shape of a turn *)

Lemma turn_shape (E : Env) goal w :
  turn_run E (conversation_history w) goal
    (outcome_of (run_concierge_agent E goal) w) (events_of (run_concierge_agent E goal) w)
  /\ conversation_history (snd (run_concierge_agent E goal w)) = conversation_history w.
Proof.
  destruct (run_concierge_agent_runs E goal w) as (o & evs & Hr & Hs).
  apply runs_events in Hr as (Ho & He & Hh).
  unfold outcome_of, events_of. rewrite Ho, He. auto.
Qed.


Lemma after_search_app a b :
  searches a = [] -> after_search (a ++ b)%list = after_search b.
Proof.
  induction a as [| e a IH]; [reflexivity |].
  destruct e; cbn [searches omap list_omap app after_search]; try discriminate;
    intros H; apply IH; exact H.
Qed.

Lemma prefix_split (E : Env) history goal recipient goal' results r_urls evs :
  prefix_run E history goal recipient goal' results r_urls evs ->
  exists r_mail gens_loc r_query pre,
    recipient = extracted r_mail
    /\ evs = (pre ++ [EvSearch (clean_query r_query) results; EvPrint results; thinking E;
                     EvGenerate (prompt2 goal' results) "text" r_urls])%list
    /\ generations pre
       = ((prompt_extract_email goal, "text", r_mail)
            :: gens_loc ++ [(prompt1 (join nl history) goal', "text", r_query)])%list
    /\ searches pre = [] /\ mails pre = [] /\ inputs pre = [] /\ browses pre = []
    /\ decisions pre = [].
Proof.
  destruct 1 as [r_mail goal' evs_loc r_query pr results r_urls Hloc].
  destruct (location_run_quiet E _ _ _ Hloc) as (Hm & Hi & Hb & Hs & Hd).
  exists r_mail, (generations evs_loc), r_query.
  eexists ([thinking E; EvGenerate (prompt_extract_email goal) "text" r_mail;
            EvPrint (nl ++ "🎯 Goal: " ++ goal ++ nl)]
           ++ evs_loc
           ++ [thinking E; EvGenerate (prompt1 (join nl history) goal') "text" r_query]
           ++ map EvPrint pr)%list.
  split; [reflexivity |]. split; [unfold clean_query; list_eq |].
  obs. rewrite Hm, Hi, Hb, Hs, Hd. auto 10.
Qed.


Lemma tail_run_quiet (E : Env) recipient goal' results r_urls o rest :
  tail_run E recipient goal' results r_urls o rest ->
  searches rest = [] /\ locations rest = [].
Proof.
  destruct 1 as [fs Hu | evs_b Hu Hb | kept evs_b fs dec o evs_m Hu Hb Hk Hm].
  - obs. auto.
  - destruct (browse_run_quiet _ _ _ Hb) as (_ & _ & _ & Hs & _ & Hl). auto.
  - destruct (browse_run_quiet _ _ _ Hb) as (_ & _ & _ & Hs & _ & Hl).
    destruct (email_run_quiet E _ _ _ _ Hm) as (_ & _ & Hs' & _ & Hl').
    obs. rewrite Hs, Hs', Hl, Hl'. auto.
Qed.

(** A turn, cut at its search: what comes before adds no search, mail,
    input, fetch or decision, and starts with the extraction call. *)
Lemma turn_view (E : Env) history goal o evs :
  turn_run E history goal o evs ->
  exists r_mail gens_loc r_query goal' results r_urls pre rest,
    evs = (pre ++ [EvSearch (clean_query r_query) results; EvPrint results; thinking E;
                   EvGenerate (prompt2 goal' results) "text" r_urls] ++ rest)%list
    /\ generations pre
       = ((prompt_extract_email goal, "text", r_mail)
            :: gens_loc ++ [(prompt1 (join nl history) goal', "text", r_query)])%list
    /\ searches pre = [] /\ mails pre = [] /\ inputs pre = [] /\ browses pre = []
    /\ decisions pre = []
    /\ tail_run E (extracted r_mail) goal' results r_urls o rest.
Proof.
  destruct 1 as [rcp goal' results r_urls evs o rest Hp Ht].
  destruct (prefix_split E _ _ _ _ _ _ _ Hp)
    as (r_mail & gens_loc & r_query & pre & -> & -> & Hg & Hs & Hm & Hi & Hb & Hd).
  exists r_mail, gens_loc, r_query, goal', results, r_urls, pre, rest.
  split; [list_eq |]. auto 10.
Qed.

(** ** C8: the search query *)


(** ** C5: the location added to the goal *)



(** Scenario A of the specification. *)
Example location_added_scenario :
  outcome_of (location_step (Script.env Script.missing_location) "sushi restaurants near me")
             Script.w0
  = Returned "sushi restaurants near me in Seattle, USA".
Proof. vm_compute. reflexivity. Qed.

(** ** Lines of a trimmed text *)



Lemma app_cons c (s t : string) : String c s ++ t = String c (s ++ t).
Proof. reflexivity. Qed.


Lemma app_empty_r (s : string) : s ++ "" = s.
Proof. induction s as [| c s IH]; [reflexivity |]. now rewrite app_cons, IH. Qed.






Lemma is_space_LF : is_space LF = true.
Proof. reflexivity. Qed.







(** ** C2: no page selected *)

Lemma selection_reply_view (E : Env) pre q results goal' r_urls rest :
  searches pre = [] ->
  after_search (pre ++ [EvSearch q results; EvPrint results; thinking E;
                        EvGenerate (prompt2 goal' results) "text" r_urls] ++ rest)%list
  = ([EvPrint results; thinking E; EvGenerate (prompt2 goal' results) "text" r_urls] ++ rest)%list.
Proof. intros H. now rewrite (after_search_app _ _ H). Qed.



(** ** C3: every fetch failed *)

Lemma browse_run_fetches urls kept evs :
  browse_run urls kept evs ->
  map fst (browses evs) = urls /\ kept = kept_pages (browses evs).
Proof.
  induction 1 as [| url rest pr text kept evs Hok Hrun [IHu IHk]
                  | url rest pr text kept evs Hok Hrun [IHu IHk]].
  - split; reflexivity.
  - obs. cbn [map fst]. rewrite IHu. split; [reflexivity |].
    unfold kept_pages in *. cbn [List.filter snd fst]. rewrite Hok. cbn [negb map fst snd].
    now rewrite <- IHk.
  - obs. cbn [map fst]. rewrite IHu. split; [reflexivity |].
    unfold kept_pages in *. cbn [List.filter snd fst]. rewrite Hok. cbn [negb].
    exact IHk.
Qed.

Lemma kept_pages_all_failed fetched :
  (forall url text, In (url, text) fetched -> startswith "Error" text = true) ->
  kept_pages fetched = [].
Proof.
  intros H. unfold kept_pages.
  induction fetched as [| [url text] rest IH]; [reflexivity |].
  cbn [List.filter snd]. rewrite (H url text (or_introl eq_refl)). cbn [negb].
  apply IH. intros u t Hin. apply (H u t). now right.
Qed.

(** C3, with the message the program returns.  Every selected URL is
    fetched once, in the order of the selection; the aggregate handed to the
    synthesis prompt is made of the results that do not start with "Error",
    in that order.  When at least one URL was selected and every result
    starts with "Error", the turn returns the fixed message that ends with
    "Please try again.", makes no generation call after the selection, sends
    no mail and asks nothing. *)
Theorem all_fetches_failed_means_fixed_message
    (E : Env) (goal : string) (w : World) (reply : string) :
  let evs := events_of (run_concierge_agent E goal) w in
  selection_reply evs = Some reply ->
  map fst (browses evs) = select_urls reply
  /\ (kept_pages (browses evs) <> [] ->
      exists goal' results summary decision,
        generations (after_search evs)
        = [(prompt2 goal' results, "text", reply);
           (prompt3 goal' (join aggregate_separator (kept_pages (browses evs))), "text", summary);
           (prompt4 goal' summary (join aggregate_separator (kept_pages (browses evs))), "json",
            decision)])
  /\ (select_urls reply <> [] ->
      (forall url text, In (url, text) (browses evs) -> startswith "Error" text = true) ->
      outcome_of (run_concierge_agent E goal) w
      = Returned "I tried to browse several websites but was blocked or couldn't find any information. Please try again."
      /\ later_generations evs = [] /\ decisions evs = []
      /\ mails evs = [] /\ inputs evs = []).
Proof.
  intros evs Hsel. destruct (turn_shape E goal w) as [Hs _]. fold evs in Hs.
  destruct (turn_view E _ _ _ _ Hs)
    as (r_mail & gens_loc & r_query & goal' & results & r_urls & pre & rest
        & Hevs & Hg & Hsp & Hm & Hi & Hb & Hd & Ht).
  rewrite Hevs in *. clear Hevs.
  unfold selection_reply, later_generations in *.
  rewrite (selection_reply_view E _ _ _ _ _ _ Hsp) in *.
  assert (r_urls = reply) as -> by (revert Hsel; obs; congruence).
  destruct Ht as [fs Hu | evs_b Hu Hbr | kept evs_b fs dec o' evs_m Hu Hbr Hk Hmail].
  - obs. rewrite Hb, Hu. cbn [app map].
    split; [reflexivity | split; [intros H; now contradiction H | intros H; now contradiction H]].
  - destruct (browse_run_fetches _ _ _ Hbr) as [Hf Hkept].
    destruct (browse_run_quiet _ _ _ Hbr) as (Hbm & Hbi & Hbg & _ & Hbd & _).
    obs. rewrite Hb, Hm, Hi, Hd. cbn [app tl].
    rewrite Hbg, Hbm, Hbi, Hbd, <- Hkept.
    split; [exact Hf | split; [intros H; now contradiction H |]].
    intros _ _. auto 10.
  - destruct (browse_run_fetches _ _ _ Hbr) as [Hf Hkept].
    destruct (browse_run_quiet _ _ _ Hbr) as (Hbm & Hbi & Hbg & _ & Hbd & _).
    destruct (email_run_quiet E _ _ _ _ Hmail) as (Hmg & Hmb & _ & Hmd & _).
    obs. rewrite Hb, Hd, Hmb. cbn [app].
    rewrite app_nil_r.
    rewrite Hbg, Hbd, Hmg, Hmd, <- Hkept. cbn [app].
    split; [exact Hf | split].
    + intros _. exists goal', results, fs, dec. reflexivity.
    + intros _ Hall. apply kept_pages_all_failed in Hall. congruence.
Qed.

Lemma all_fetches_failed_witness :
  let E := Script.env Script.both_blocked in
  let evs := events_of (run_concierge_agent E "sushi in Seattle") Script.w0 in
  map fst (browses evs) = ["https://a.example/sushi"; "https://b.example/list"]
  /\ outcome_of (run_concierge_agent E "sushi in Seattle") Script.w0
     = Returned "I tried to browse several websites but was blocked or couldn't find any information. Please try again."
  /\ later_generations evs = [].
Proof.
  intros E evs.
  assert (Hsel : selection_reply evs
                 = Some ("https://a.example/sushi" ++ nl ++ "https://b.example/list"))
    by (vm_compute; reflexivity).
  destruct (all_fetches_failed_means_fixed_message E "sushi in Seattle" Script.w0 _ Hsel)
    as (Hf & _ & Hall).
  destruct Hall as (Ho & Hg & _).
  - vm_compute. discriminate.
  - intros url text Hin. vm_compute in Hin.
    destruct Hin as [Heq | [Heq | []]]; inversion Heq; reflexivity.
  - split; [vm_compute; reflexivity | split; [exact Ho | exact Hg]].
Defined.

(** The message returned when both fetches fail is not the sentence that
    ends with "information.": "Please try again." follows it. *)
Lemma failure_message_is_longer :
  let E := Script.env Script.both_blocked in
  let evs := events_of (run_concierge_agent E "sushi in Seattle") Script.w0 in
  browses evs
  = [("https://a.example/sushi", "Error browsing website https://a.example/sushi: 404 Client Error");
     ("https://b.example/list", "Error: No text content found at https://b.example/list")]
  /\ outcome_of (run_concierge_agent E "sushi in Seattle") Script.w0
     <> Returned "I tried to browse several websites but was blocked or couldn't find any information."
  /\ outcome_of (run_concierge_agent E "sushi in Seattle") Script.w0
     = Returned ("I tried to browse several websites but was blocked or couldn't find any information."
                 ++ " Please try again.").
Proof. vm_compute. repeat split. discriminate. Qed.

(** ** The email step, read from its log *)

Lemma mails_app a b : mails (a ++ b)%list = (mails a ++ mails b)%list.
Proof. apply omap_app. Qed.

Lemma inputs_app a b : inputs (a ++ b)%list = (inputs a ++ inputs b)%list.
Proof. apply omap_app. Qed.

Lemma decisions_app a b : decisions (a ++ b)%list = (decisions a ++ decisions b)%list.
Proof. apply omap_app. Qed.

Lemma generations_app a b : generations (a ++ b)%list = (generations a ++ generations b)%list.
Proof. apply omap_app. Qed.

Lemma before_input_app a b :
  inputs a = [] -> before_input (a ++ b)%list = (a ++ before_input b)%list.
Proof.
  induction a as [| e a IH]; [reflexivity |].
  destruct e; cbn [inputs omap list_omap app before_input]; try discriminate;
    intros H; f_equal; apply IH; exact H.
Qed.

Lemma sendable_none : sendable "none" = false.
Proof. reflexivity. Qed.

Lemma drafted_bad_json (E : Env) s msg : json_loads E s = inl msg -> drafted E s = None.
Proof. unfold drafted. now intros ->. Qed.

Lemma drafted_not_dict (E : Env) s v :
  json_loads E s = inr v -> (forall d, v <> PDict d) -> drafted E s = None.
Proof.
  unfold drafted. intros -> H. destruct v; try reflexivity. now contradiction (H d).
Qed.

(** What the [try] statement does, by the draft it reads. *)
Lemma email_run_view (E : Env) from_goal decision o evs :
  email_run E from_goal decision o evs ->
  match drafted E decision with
  | None =>
      mails evs = [] /\ inputs evs = [] /\ o = Returned tt
      /\ (evs = [] \/ exists msg, evs = [could_not_determine msg])
  | Some (subject, body) =>
      mails (before_input evs) = []
      /\ (exists p confirm rest,
            inputs evs = (p, confirm) :: rest
            /\ (p = reuse_prompt from_goal \/ p = offer_prompt)
            /\ (String.eqb (lower confirm) "y" = false -> rest = [])
            /\ (String.eqb (lower confirm) "y" = true -> String.eqb from_goal "none" = true ->
                exists address, rest = [(address_prompt, address)]))
      /\ mails evs
         = if affirmative (confirmation evs)
              && sendable (resolve from_goal (entered_address evs))
           then [(resolve from_goal (entered_address evs), subject, body)]
           else []
  end.
Proof.
  destruct 1 as [msg Hj | v Hj Hv | d Hj Hd
                 | s b r evs Hd Hr Hs | s b r evs pr res Hd Hr Hs
                 | s b r evs pr e Hd Hr Hs Hc | s b r evs pr e Hd Hr Hs Hc].
  - rewrite (drafted_bad_json _ _ _ Hj). repeat split; eauto.
  - rewrite (drafted_not_dict _ _ _ Hj Hv). repeat split; eauto.
  - rewrite Hd. repeat split; eauto.
  - rewrite Hd. unfold confirmation, entered_address, resolve, affirmative.
    destruct Hr as [c Hn Hy | c Hn Hy | c a Hn Hy | c Hn Hy];
      obs; cbn [before_input omap list_omap app]; rewrite ?Hn, ?Hy; cbn [negb andb];
      rewrite ?Hs, ?sendable_none;
      (split; [reflexivity | split; [| reflexivity]]);
      eexists _, _, _; (split; [reflexivity |]);
      (split; [auto |]); (split; [try congruence; auto | try congruence; eauto]).
  - rewrite Hd. unfold confirmation, entered_address, resolve, affirmative.
    destruct Hr as [c Hn Hy | c Hn Hy | c a Hn Hy | c Hn Hy];
      try (rewrite sendable_none in Hs; discriminate Hs);
      obs; cbn [before_input omap list_omap app]; rewrite ?Hn, ?Hy; cbn [negb andb];
      rewrite ?Hs;
      (split; [reflexivity | split; [| reflexivity]]);
      eexists _, _, _; (split; [reflexivity |]);
      (split; [auto |]); (split; [try congruence; auto | try congruence; eauto]).
  - rewrite Hd. unfold confirmation, entered_address, resolve, affirmative.
    destruct Hr as [c Hn Hy | c Hn Hy | c a Hn Hy | c Hn Hy];
      try (rewrite sendable_none in Hs; discriminate Hs);
      obs; cbn [before_input omap list_omap app]; rewrite ?Hn, ?Hy; cbn [negb andb];
      rewrite ?Hs;
      (split; [reflexivity | split; [| reflexivity]]);
      eexists _, _, _; (split; [reflexivity |]);
      (split; [auto |]); (split; [try congruence; auto | try congruence; eauto]).
  - rewrite Hd. unfold confirmation, entered_address, resolve, affirmative.
    destruct Hr as [c Hn Hy | c Hn Hy | c a Hn Hy | c Hn Hy];
      try (rewrite sendable_none in Hs; discriminate Hs);
      obs; cbn [before_input omap list_omap app]; rewrite ?Hn, ?Hy; cbn [negb andb];
      rewrite ?Hs;
      (split; [reflexivity | split; [| reflexivity]]);
      eexists _, _, _; (split; [reflexivity |]);
      (split; [auto |]); (split; [try congruence; auto | try congruence; eauto]).
Qed.

Lemma after_decision_app a b :
  decisions a = [] -> after_decision (a ++ b)%list = after_decision b.
Proof.
  induction a as [| e a IH]; [reflexivity |].
  destruct e; cbn [decisions omap list_omap app after_decision]; try (intros H; apply IH; exact H).
  destruct (String.eqb output_format "json"); [discriminate |].
  intros H; apply IH; exact H.
Qed.

(** A turn, cut at its email step: either the turn ends before any decision
    is asked for, or the decision call is followed by the email step alone. *)
Lemma turn_email_view (E : Env) history goal o evs :
  turn_run E history goal o evs ->
  (decisions evs = [] /\ mails evs = [] /\ inputs evs = [] /\ exists s, o = Returned s)
  \/ exists front decision om evs_m goal' results reply aggregated summary,
       evs = (front ++ evs_m)%list
       /\ mails front = [] /\ inputs front = [] /\ decisions front = [decision]
       /\ decisions evs_m = []
       /\ after_decision front = []
       /\ generations (after_search evs)
          = [(prompt2 goal' results, "text", reply);
             (prompt3 goal' aggregated, "text", summary);
             (prompt4 goal' summary aggregated, "json", decision)]
       /\ email_run E (recipient_from_goal evs) decision om evs_m
       /\ o = match om with Returned _ => Returned summary | Raised e => Raised e end.
Proof.
  intros Hs.
  destruct (turn_view E _ _ _ _ Hs)
    as (r_mail & gens_loc & r_query & goal' & results & r_urls & pre & rest
        & -> & Hg & Hsp & Hm & Hi & Hb & Hd & Ht).
  assert (Hrcp : forall tl, recipient_from_goal (pre ++ tl)%list = extracted r_mail).
  { intros tl. unfold recipient_from_goal. now rewrite generations_app, Hg. }
  destruct Ht as [fs Hu | evs_b Hu Hbr | kept evs_b fs dec o' evs_m Hu Hbr Hk Hmail].
  - left. obs. rewrite Hm, Hi, Hd. eauto.
  - left. destruct (browse_run_quiet _ _ _ Hbr) as (Hbm & Hbi & _ & _ & Hbd & _).
    obs. rewrite Hm, Hi, Hd, Hbm, Hbi, Hbd. eauto.
  - right.
    destruct (browse_run_quiet _ _ _ Hbr) as (Hbm & Hbi & Hbg & _ & Hbd & _).
    destruct (email_run_quiet E _ _ _ _ Hmail) as (Hmg & _ & _ & Hmd & _).
    eexists (pre ++ [EvSearch (clean_query r_query) results; EvPrint results; thinking E;
                     EvGenerate (prompt2 goal' results) "text" r_urls]
             ++ evs_b
             ++ [thinking E;
                 EvGenerate (prompt3 goal' (join aggregate_separator kept)) "text" fs]
             ++ summary_prints fs
             ++ [thinking E;
                 EvGenerate (prompt4 goal' fs (join aggregate_separator kept)) "json" dec])%list,
      dec, o', evs_m, goal', results, r_urls, (join aggregate_separator kept), fs.
    split; [unfold summary_prints; list_eq |].
    rewrite Hrcp.
    rewrite (after_search_app _ _ Hsp).
    rewrite (after_decision_app _ _ Hd).
    cbn [app after_search after_decision]. rewrite text_is_not_json.
    rewrite (after_decision_app _ _ Hbd).
    obs. rewrite Hm, Hi, Hd, Hbm, Hbi, Hbd, Hbg, Hmg.
    cbn [after_decision app]. rewrite text_is_not_json, json_is_json.
    split; [reflexivity |]. split; [reflexivity |]. split; [reflexivity |].
    split; [exact Hmd |]. split; [reflexivity |]. split; [reflexivity |].
    split; [exact Hmail | reflexivity].
Qed.

Lemma before_input_quiet l : inputs l = [] -> before_input l = l.
Proof.
  intros H. rewrite <- (app_nil_r l) at 1. rewrite (before_input_app _ _ H).
  apply app_nil_r.
Qed.

Lemma sendable_iff r : sendable r = true <-> r <> "" /\ r <> "none".
Proof.
  unfold sendable. rewrite andb_true_iff, !negb_true_iff.
  destruct (String.eqb_spec r "none") as [-> | Hn].
  - split; [intros [_ H]; discriminate H | intros [_ H]; now contradiction H].
  - destruct r; cbn [is_empty]; split; try easy; intros [H _]; now contradiction H.
Qed.

(** ** C1: when mail is sent *)

(** C1.  In every turn, a mail call is made if and only if the email
    decision of the turn reads as a draft (it says to send and has a subject
    and a body), the answer to the confirmation prompt is "y" up to case, and
    the resolved recipient is neither empty nor "none".  At most one mail is
    sent, to the resolved recipient, with the subject and body of the draft;
    and no mail call comes before the first read from the terminal. *)
Theorem mail_sent_iff_confirmed (E : Env) (goal : string) (w : World) :
  let evs := events_of (run_concierge_agent E goal) w in
  (mails evs <> [] <->
     (exists subject body, draft_of E evs = Some (subject, body))
     /\ affirmative (confirmation evs) = true
     /\ resolved_recipient evs <> "" /\ resolved_recipient evs <> "none")
  /\ (forall to_address subject body,
        In (to_address, subject, body) (mails evs) ->
        mails evs = [(to_address, subject, body)]
        /\ to_address = resolved_recipient evs
        /\ draft_of E evs = Some (subject, body))
  /\ mails (before_input evs) = [].
Proof.
  intros evs. destruct (turn_shape E goal w) as [Hs _]. fold evs in Hs.
  destruct (turn_email_view E _ _ _ _ Hs)
    as [(Hd & Hm & Hi & _)
       | (front & dec & om & evs_m & goal' & results & reply & agg & summary
          & Hevs & Hfm & Hfi & Hfd & Hmd & _ & _ & Hmail & _)].
  - rewrite (before_input_quiet _ Hi). unfold draft_of. rewrite Hd, Hm.
    split; [| split; [intros ? ? ? [] | reflexivity]].
    split; [intros H; now contradiction H | intros [(s & b & H) _]; discriminate H].
  - apply email_run_view in Hmail.
    unfold draft_of, resolved_recipient, confirmation, entered_address in *.
    rewrite Hevs in *. clear Hevs.
    rewrite (before_input_app _ _ Hfi).
    rewrite !mails_app, !inputs_app, !decisions_app, Hfm, Hfi, Hfd, Hmd in *.
    cbn [app] in *.
    destruct (drafted E dec) as [[s b] |] eqn:Hdr.
    + destruct Hmail as (Hbefore & _ & Hmails). rewrite Hbefore, Hmails.
      set (r := resolve _ _).
      destruct (affirmative _) eqn:Haff; cbn [andb]; cbv beta iota.
      * destruct (sendable r) eqn:Hsend; cbv beta iota.
        -- pose proof (proj1 (sendable_iff r) Hsend) as [Hne Hnn].
           split; [| split; [| reflexivity]].
           ++ split; [intros _; eauto 10 | intros _; discriminate].
           ++ intros t s' b' [Heq | []]. inversion Heq; subst. auto.
        -- split; [| split; [intros ? ? ? [] | reflexivity]].
           split; [intros H; now contradiction H |].
           intros (_ & _ & Hne & Hnn).
           rewrite (proj2 (sendable_iff r) (conj Hne Hnn)) in Hsend. discriminate Hsend.
      * split; [| split; [intros ? ? ? [] | reflexivity]].
        split; [intros H; now contradiction H |].
        intros (_ & Ha & _). discriminate Ha.
    + destruct Hmail as (Hm & Hi & _). rewrite Hm, Hi. cbn [before_input].
      rewrite (before_input_quiet _ Hi), Hm.
      split; [| split; [intros ? ? ? [] | reflexivity]].
      split; [intros H; now contradiction H | intros [(s & b & H) _]; discriminate H].
Qed.

(** ** C4: a malformed decision *)





(** A text that is not JSON at all: the same, with the diagnostic line. *)
Example unparseable_decision :
  let E := Script.env (Script.answered [] ["y"; "a@b.com"]) in
  let evs := events_of (run_concierge_agent E "sushi in Seattle") Script.w0 in
  malformed E "DECISION" /\ mails evs = [] /\ inputs evs = []
  /\ after_decision evs = [could_not_determine "Expecting value"]
  /\ outcome_of (run_concierge_agent E "sushi in Seattle") Script.w0
     = Returned "Sushi A is open late.".
Proof. vm_compute. auto. Qed.

(** ** C10: an answer other than "y" *)

(** C10.  When the answer to the confirmation prompt, lowercased, is not
    "y" (the answer "yes" is such an answer), nothing more is read from the
    terminal, so no address is asked for, and no mail is sent.  The prompt
    answered is one of the two confirmation prompts. *)
Theorem answer_other_than_y_sends_nothing
    (E : Env) (goal : string) (w : World) (answer : string) :
  let evs := events_of (run_concierge_agent E goal) w in
  confirmation evs = Some answer ->
  lower answer <> "y" ->
  mails evs = []
  /\ exists prompt,
       inputs evs = [(prompt, answer)]
       /\ (prompt = reuse_prompt (recipient_from_goal evs) \/ prompt = offer_prompt).
Proof.
  intros evs Hc Hy. apply String.eqb_neq in Hy.
  destruct (turn_shape E goal w) as [Hs _]. fold evs in Hs.
  destruct (turn_email_view E _ _ _ _ Hs)
    as [(_ & _ & Hi & _)
       | (front & dec & om & evs_m & goal' & results & reply & agg & summary
          & Hevs & Hfm & Hfi & _ & _ & _ & _ & Hmail & _)].
  { unfold confirmation in Hc. rewrite Hi in Hc. discriminate Hc. }
  apply email_run_view in Hmail.
  unfold confirmation, entered_address in *.
  rewrite Hevs in *. clear Hevs.
  rewrite !mails_app, !inputs_app, Hfm, Hfi in *. cbn [app] in *.
  destruct (drafted E dec) as [[s b] |].
  - destruct Hmail as (_ & (p & c & rest & Hin & Hp & Hrest & _) & Hmails).
    rewrite Hin in *. injection Hc as ->. rewrite (Hrest Hy) in *.
    rewrite Hmails. unfold affirmative. rewrite Hy. cbn [andb].
    split; [reflexivity | exists p; auto].
  - destruct Hmail as (_ & Hi & _). rewrite Hi in Hc. discriminate Hc.
Qed.

Lemma answer_yes_witness :
  let E := Script.env (Script.answered Script.complete_draft ["yes"; "a@b.com"]) in
  let evs := events_of (run_concierge_agent E "sushi in Seattle") Script.w0 in
  confirmation evs = Some "yes" /\ lower "yes" <> "y"
  /\ mails evs = [] /\ inputs evs = [(offer_prompt, "yes")].
Proof.
  intros E evs.
  assert (Hc : confirmation evs = Some "yes") by (vm_compute; reflexivity).
  assert (Hy : lower "yes" <> "y") by (vm_compute; discriminate).
  destruct (answer_other_than_y_sends_nothing E "sushi in Seattle" Script.w0 "yes" Hc Hy)
    as (Hm & _).
  split; [exact Hc | split; [exact Hy | split; [exact Hm |]]].
  vm_compute. reflexivity.
Defined.

(** ** C9: the address typed in *)

(** C9.  When no recipient was taken from the goal, the decision is a draft
    and the user accepts the offer, the address typed in is the recipient of
    the mail as it is, whatever it is, as long as it is neither empty nor
    "none"; and there is such a run in which the address has no "@". *)
Theorem entered_address_used_verbatim :
  (forall (E : Env) (goal : string) (w : World) subject body confirm address,
     let evs := events_of (run_concierge_agent E goal) w in
     recipient_from_goal evs = "none" ->
     draft_of E evs = Some (subject, body) ->
     inputs evs = [(offer_prompt, confirm); (address_prompt, address)] ->
     address <> "" -> address <> "none" ->
     mails evs = [(address, subject, body)])
  /\ exists (E : Env) (goal : string) (w : World) subject body address,
       let evs := events_of (run_concierge_agent E goal) w in
       contains "@" address = false /\ address <> "" /\ address <> "none"
       /\ recipient_from_goal evs = "none"
       /\ entered_address evs = Some address
       /\ mails evs = [(address, subject, body)].
Proof.
  split.
  - intros E goal w subject body confirm address evs Hnone Hdraft Hin Hne Hnn.
    destruct (turn_shape E goal w) as [Hs _]. fold evs in Hs.
    destruct (turn_email_view E _ _ _ _ Hs)
      as [(_ & _ & Hi & _)
         | (front & dec & om & evs_m & goal' & results & reply & agg & summary
            & Hevs & Hfm & Hfi & Hfd & Hmd & _ & _ & Hmail & _)].
    { rewrite Hi in Hin. discriminate Hin. }
    apply email_run_view in Hmail. rewrite Hnone in Hmail.
    unfold draft_of, confirmation, entered_address in *.
    rewrite Hevs in *. clear Hevs.
    rewrite !mails_app, !inputs_app, !decisions_app, Hfm, Hfi, Hfd, Hmd in *.
    cbn [app] in *. rewrite Hdraft in Hmail.
    destruct Hmail as (_ & (p & c & rest & Hin' & _ & Hrest & _) & Hmails).
    rewrite Hin in *. injection Hin' as <- <- <-.
    rewrite Hmails. change (resolve "none" (Some address)) with address.
    unfold affirmative.
    destruct (String.eqb (lower confirm) "y") eqn:Hy;
      [| specialize (Hrest eq_refl); discriminate Hrest].
    now rewrite (proj2 (sendable_iff address) (conj Hne Hnn)).
  - exists (Script.env (Script.answered Script.complete_draft ["Y"; "bob"])),
      "sushi in Seattle", Script.w0, (PStr "Sushi picks"), (PStr "Sushi A"), "bob".
    vm_compute. repeat split; discriminate.
Qed.

(** ** C6: the history *)

(** One pass of the loop: the goal read, and what becomes of the history. *)
Lemma main_turn_history (E : Env) w :
  exists user_goal,
    let w1 := after w [EvInput main_prompt user_goal] in
    inputs (firstn 1 (events_of (main_turn E) w)) = [(main_prompt, user_goal)]
    /\ if quits user_goal then
         outcome_of (main_turn E) w = Returned false
         /\ conversation_history (snd (main_turn E w)) = conversation_history w
       else
         match outcome_of (run_concierge_agent E user_goal) w1 with
         | Returned agent_summary =>
             outcome_of (main_turn E) w = Returned true
             /\ conversation_history (snd (main_turn E w))
                = (conversation_history w ++ turn_entries (user_goal, agent_summary))%list
         | Raised e =>
             outcome_of (main_turn E) w = Raised e
             /\ conversation_history (snd (main_turn E w)) = conversation_history w
         end.
Proof.
  destruct (input_runs E main_prompt w) as [user_goal Hin].
  exists user_goal. intros w1.
  destruct (run_concierge_agent_runs E user_goal w1) as (o & evs & Hr & _).
  pose proof Hr as Hr'. apply runs_events in Hr' as (Ho & _ & _).
  unfold outcome_of in *. rewrite Ho.
  unfold main_turn, events_of, bind, quits. fold main_prompt.
  unfold runs in Hin. rewrite Hin. fold w1.
  destruct (String.eqb (lower user_goal) "quit" || String.eqb (lower user_goal) "exit").
  - split; [| split; reflexivity].
    rewrite (events_since_log w _ [EvInput main_prompt user_goal; EvPrint "🤖 Goodbye!"]);
      reflexivity.
  - unfold runs in Hr. rewrite Hr.
    assert (Hfirst : forall w', log w' = (rev evs ++ log w1)%list ->
              inputs (firstn 1 (events_since w w')) = [(main_prompt, user_goal)]).
    { intros w' Hlog.
      rewrite (events_since_log w w' ([EvInput main_prompt user_goal] ++ evs)%list);
        [reflexivity |].
      rewrite Hlog, rev_app_distr, <- app_assoc. reflexivity. }
    destruct o as [summary | e].
    + unfold history_append, ret. cbn [fst snd conversation_history log after].
      split; [apply Hfirst; reflexivity | split; [reflexivity |]].
      unfold turn_entries. cbn [fst snd]. now rewrite <- app_assoc.
    + cbn [fst snd conversation_history after].
      split; [apply Hfirst; reflexivity | split; reflexivity].
Qed.

Lemma main_loop_history (E : Env) fuel : forall w,
  exists turns,
    conversation_history (snd (main_loop E fuel w))
    = (conversation_history w ++ concat (map turn_entries turns))%list
    /\ length turns <= fuel.
Proof.
  induction fuel as [| fuel IH]; intros w.
  - exists []. cbn [main_loop ret snd map concat length]. now rewrite app_nil_r.
  - cbn [main_loop]. unfold bind.
    destruct (main_turn_history E w) as (user_goal & _ & H).
    unfold outcome_of in H.
    destruct (main_turn E w) as [o w'] eqn:Hturn. cbn [fst snd] in H.
    destruct (quits user_goal).
    + destruct H as [-> Hh]. exists []. cbn [ret snd map concat length].
      rewrite Hh, app_nil_r. split; [reflexivity | lia].
    + destruct (fst (run_concierge_agent E user_goal _)) as [summary | e].
      * destruct H as [-> Hh]. destruct (IH w') as (turns & Ht & Hl).
        exists ((user_goal, summary) :: turns). cbn [map concat length].
        rewrite Ht, Hh, <- app_assoc. split; [reflexivity | lia].
      * destruct H as [-> Hh]. exists []. cbn [snd map concat length].
        rewrite Hh, app_nil_r. split; [reflexivity | lia].
Qed.

(** C6.  The pipeline leaves the history list as it found it.  A pass of the
    main loop that completes a turn appends to the history exactly two
    entries, the user's goal and then the summary the pipeline returned,
    whichever exit the pipeline took; a pass that ends the session, or in
    which the pipeline raises, leaves the history unchanged.  Over any number
    of passes the history is the one at the start followed by the two entries
    of each completed turn: nothing is rewritten or removed. *)
Theorem history_grows_by_two_per_turn (E : Env) (w : World) :
  (forall goal,
     conversation_history (snd (run_concierge_agent E goal w)) = conversation_history w)
  /\ (exists user_goal,
        inputs (firstn 1 (events_of (main_turn E) w)) = [(main_prompt, user_goal)]
        /\ if quits user_goal then
             outcome_of (main_turn E) w = Returned false
             /\ conversation_history (snd (main_turn E w)) = conversation_history w
           else
             match outcome_of (run_concierge_agent E user_goal)
                              (after w [EvInput main_prompt user_goal]) with
             | Returned agent_summary =>
                 outcome_of (main_turn E) w = Returned true
                 /\ conversation_history (snd (main_turn E w))
                    = app (conversation_history w)
                          ["User: " ++ user_goal; "Agent: " ++ agent_summary]
             | Raised e =>
                 outcome_of (main_turn E) w = Raised e
                 /\ conversation_history (snd (main_turn E w)) = conversation_history w
             end)
  /\ (forall fuel,
        exists turns,
          conversation_history (snd (main_loop E fuel w))
          = (conversation_history w ++ concat (map turn_entries turns))%list
          /\ length turns <= fuel).
Proof.
  split; [intros goal; apply turn_shape |].
  split; [exact (main_turn_history E w) | intros fuel; apply main_loop_history].
Qed.

(** Two turns and then "QUIT": four entries, in order. *)
Example two_turns_history :
  conversation_history (snd (main (Script.env Script.two_turns) 5 (mkWorld [] ["stale"])))
  = ["User: sushi"; "Agent: Summary one."; "User: ramen"; "Agent: Summary two."]
  /\ outcome_of (main (Script.env Script.two_turns) 5) (mkWorld [] ["stale"]) = Returned true.
Proof. vm_compute. auto. Qed.

(** * Further properties of the tools and of the chain *)

(** ** Slices, trimming and cleaning *)

Lemma str_app_assoc (a b c : string) : (a ++ b) ++ c = a ++ (b ++ c).
Proof. induction a as [| x a IH]; [reflexivity |]. now rewrite !app_cons, IH. Qed.

Lemma str_length_app (a b : string) :
  String.length (a ++ b) = String.length a + String.length b.
Proof. induction a as [| x a IH]; [reflexivity |]. rewrite app_cons. cbn. now rewrite IH. Qed.



Lemma take_all n s : String.length s <= n -> take n s = s.
Proof.
  unfold take. revert s. induction n as [| n IH]; intros [| c s]; cbn; try reflexivity; try lia.
  intros H. rewrite IH; [reflexivity | lia].
Qed.

Lemma take_last_all n s : String.length s <= n -> take_last n s = s.
Proof.
  intros H. unfold take_last. replace (String.length s - n) with 0 by lia.
  now apply take_all.
Qed.

Lemma take_last_cons n c s :
  n <= String.length s -> take_last n (String c s) = take_last n s.
Proof.
  intros H. unfold take_last.
  change (String.length (String c s)) with (S (String.length s)).
  replace (S (String.length s) - n) with (S (String.length s - n)) by lia.
  reflexivity.
Qed.

Lemma take_last_suffix n s :
  String.length (take_last n s) = Nat.min n (String.length s)
  /\ exists t, s = t ++ take_last n s.
Proof.
  induction s as [| c s [IHl [t IHt]]].
  - split; [destruct n; reflexivity | destruct n; now exists ""].
  - destruct (Nat.le_gt_cases n (String.length s)) as [Hle | Hgt].
    + rewrite (take_last_cons _ _ _ Hle). split.
      * rewrite IHl. change (String.length (String c s)) with (S (String.length s)). lia.
      * exists (String c t). rewrite app_cons. now rewrite <- IHt.
    + change (String.length (String c s)) with (S (String.length s)).
      rewrite take_last_all
        by (change (String.length (String c s)) with (S (String.length s)); lia).
      split.
      * change (String.length (String c s)) with (S (String.length s)). lia.
      * now exists "".
Qed.

Lemma rstrip_idem s : rstrip (rstrip s) = rstrip s.
Proof.
  induction s as [| c s IH]; [reflexivity |].
  cbn [rstrip]. destruct (rstrip s) as [| d r] eqn:Hr.
  - destruct (is_space c) eqn:Hc; [reflexivity |]. cbn [rstrip]. now rewrite Hc.
  - cbn [rstrip] in *. now rewrite IH.
Qed.

Lemma rstrip_keeps_head c r :
  is_space c = false -> exists r', rstrip (String c r) = String c r'.
Proof.
  intros Hc. cbn [rstrip]. destruct (rstrip r); [rewrite Hc |]; eauto.
Qed.

Lemma lstrip_head s :
  lstrip s = "" \/ exists c r, lstrip s = String c r /\ is_space c = false.
Proof.
  induction s as [| c s IH]; [now left |].
  cbn [lstrip]. destruct (is_space c) eqn:Hc; [exact IH | right; eauto].
Qed.

Lemma strip_idem s : strip (strip s) = strip s.
Proof.
  unfold strip. destruct (lstrip_head s) as [-> | (c & r & -> & Hc)]; [reflexivity |].
  destruct (rstrip_keeps_head c r Hc) as [r' Hr]. rewrite Hr.
  cbn [lstrip]. rewrite Hc, <- Hr. apply rstrip_idem.
Qed.

Lemma contains_one c s :
  contains (String c "") s = true <-> exists a b, s = a ++ String c b.
Proof.
  induction s as [| x s IH].
  - split; [discriminate |]. intros ([| ? ?] & b & H); discriminate H.
  - cbn [contains startswith]. rewrite andb_true_r, orb_true_iff, IH. split.
    + intros [->%Ascii.eqb_eq | (a & b & ->)]; [now exists "", s |].
      now exists (String x a), b.
    + intros ([| y a] & b & H).
      * injection H as -> ->. left. apply Ascii.eqb_refl.
      * rewrite app_cons in H. injection H as -> ->. right. eauto.
Qed.

Lemma remove_char_has_none c s : contains (String c "") (remove_char c s) = false.
Proof.
  induction s as [| x s IH]; [reflexivity |].
  cbn [remove_char]. destruct (Ascii.eqb x c) eqn:Hx; [exact IH |].
  cbn [contains startswith]. rewrite IH, andb_true_r, orb_false_r.
  now rewrite Ascii.eqb_sym.
Qed.


(** ** The web search *)

Lemma concat_empty_cons x xs : String.concat "" (x :: xs) = x ++ String.concat "" xs.
Proof. destruct xs; cbn [String.concat]; [now rewrite app_empty_r | reflexivity]. Qed.

Lemma fold_left_append {A} (f : A -> string) l acc :
  fold_left (fun output item => output ++ f item) l acc
  = acc ++ String.concat "" (map f l).
Proof.
  revert acc. induction l as [| x l IH]; intros acc.
  - cbn. now rewrite app_empty_r.
  - cbn [fold_left map]. now rewrite IH, concat_empty_cons, str_app_assoc.
Qed.

(** Everything [search_web] does, by the state of the key and the answer of
    the search service. *)
Lemma search_web_spec (E : Env) query w :
  exists result pr,
    runs (search_web E query) w (Returned result)
         (map EvPrint pr ++ [EvSearch query result])%list
    /\ if falsy_opt (SERPER_API_KEY E) then
         result = "Error: SERPER_API_KEY is not set. Cannot perform web search."
         /\ pr = [search_tool_line query; "--- DEBUG: SERPER_API_KEY is not set. ---"]
       else
         let dbg := key_debug_line (or_default (SERPER_API_KEY E) "") in
         match serper_post E (EvPrint dbg :: EvPrint (search_tool_line query) :: log w) query with
         | SerperNoResponse e =>
             result = "Error during web search: " ++ e
             /\ pr = [search_tool_line query; dbg]
         | SerperResponse status_code text body =>
             pr = [search_tool_line query; dbg;
                   "--- DEBUG: Serper API response status code: " ++ status_code ++ " ---";
                   "--- DEBUG: Serper API response text: " ++ take 500 text ++ " ... ---"]
             /\ result = match body with
                         | SerperBad e => "Error during web search: " ++ e
                         | SerperOrganic [] => "No good search results found."
                         | SerperOrganic items => formatted_results items
                         end
         end.
Proof.
  unfold search_web, search_web_body, search_tool_line, key_debug_line. run_unfold.
  destruct (falsy_opt (SERPER_API_KEY E)).
  - eexists _, [_; _]. split; [reflexivity | split; reflexivity].
  - run_unfold. cbv zeta.
    destruct (serper_post E _ _) as [e | code text [e | [| it its]]].
    + eexists _, [_; _]. split; [reflexivity | split; reflexivity].
    + eexists _, [_; _; _; _]. split; [reflexivity | split; reflexivity].
    + eexists _, [_; _; _; _]. split; [reflexivity | split; reflexivity].
    + eexists _, [_; _; _; _]. split; [reflexivity | split; [reflexivity |]].
      unfold formatted_results. now rewrite fold_left_append.
Qed.

Lemma printed_prints pr :
  omap (fun e => match e with EvPrint s => Some s | _ => None end) (map EvPrint pr) = pr.
Proof. induction pr as [| s pr IH]; [reflexivity |]. cbn [map omap list_omap]. now rewrite IH. Qed.


Lemma search_web_view (E : Env) query w :
  exists result pr,
    outcome_of (search_web E query) w = Returned result
    /\ events_of (search_web E query) w = (map EvPrint pr ++ [EvSearch query result])%list
    /\ if falsy_opt (SERPER_API_KEY E) then
         result = "Error: SERPER_API_KEY is not set. Cannot perform web search."
         /\ pr = [search_tool_line query; "--- DEBUG: SERPER_API_KEY is not set. ---"]
       else
         let dbg := key_debug_line (or_default (SERPER_API_KEY E) "") in
         match serper_post E (EvPrint dbg :: EvPrint (search_tool_line query) :: log w) query with
         | SerperNoResponse e =>
             result = "Error during web search: " ++ e
             /\ pr = [search_tool_line query; dbg]
         | SerperResponse status_code text body =>
             pr = [search_tool_line query; dbg;
                   "--- DEBUG: Serper API response status code: " ++ status_code ++ " ---";
                   "--- DEBUG: Serper API response text: " ++ take 500 text ++ " ... ---"]
             /\ result = match body with
                         | SerperBad e => "Error during web search: " ++ e
                         | SerperOrganic [] => "No good search results found."
                         | SerperOrganic items => formatted_results items
                         end
         end.
Proof.
  destruct (search_web_spec E query w) as (result & pr & Hr & H).
  apply runs_events in Hr as (Ho & He & _). exists result, pr. auto.
Qed.

(** X1.  Without an API key (the variable unset or empty) [search_web]
    returns the fixed error text, whatever the search service would answer,
    and prints the tool line and the line that says the key is not set. *)
Theorem search_without_key_reports_error (E : Env) (query : string) (w : World) :
  falsy_opt (SERPER_API_KEY E) = true ->
  outcome_of (search_web E query) w
  = Returned "Error: SERPER_API_KEY is not set. Cannot perform web search."
  /\ printed (events_of (search_web E query) w)
     = ["--- Tool: Searching web for '" ++ query ++ "' ---";
        "--- DEBUG: SERPER_API_KEY is not set. ---"]
  /\ searches (events_of (search_web E query) w)
     = [(query, "Error: SERPER_API_KEY is not set. Cannot perform web search.")].
Proof.
  intros Hk. destruct (search_web_view E query w) as (result & pr & Ho & He & H).
  rewrite Hk in H. destruct H as [-> ->]. rewrite Ho, He.
  repeat split; reflexivity.
Qed.

Lemma search_without_key_witness :
  let E := Script.no_variables (Script.env Script.blank) in
  falsy_opt (SERPER_API_KEY E) = true
  /\ outcome_of (search_web E "sushi") Script.w0
     = Returned "Error: SERPER_API_KEY is not set. Cannot perform web search.".
Proof.
  intros E. assert (Hk : falsy_opt (SERPER_API_KEY E) = true) by reflexivity.
  split; [exact Hk |].
  exact (proj1 (search_without_key_reports_error E "sushi" Script.w0 Hk)).
Defined.




(** X4.  The debug line of [search_web] shows the last four characters of
    the key: a suffix of the key of length at most four, and the whole key when
    the key has four characters or fewer. *)
Theorem debug_line_shows_key_tail (E : Env) (query : string) (w : World) (key : string) :
  SERPER_API_KEY E = Some key ->
  key <> "" ->
  In ("--- DEBUG: Using SERPER_API_KEY ending in '..." ++ take_last 4 key ++ "' ---")
     (printed (events_of (search_web E query) w))
  /\ String.length (take_last 4 key) = Nat.min 4 (String.length key)
  /\ (exists front, key = front ++ take_last 4 key)
  /\ (String.length key <= 4 -> take_last 4 key = key).
Proof.
  intros Hkey Hne. destruct (search_web_view E query w) as (result & pr & Ho & He & H).
  rewrite Hkey in H. destruct key as [| c key]; [now contradiction Hne |].
  cbn [falsy_opt is_empty or_default] in H. cbv zeta in H.
  split; [| split; [apply take_last_suffix | split; [apply take_last_suffix | apply take_last_all]]].
  rewrite He. unfold printed. rewrite omap_app, printed_prints. cbn [omap list_omap].
  rewrite app_nil_r.
  destruct (serper_post E _ _) as [e | code text body]; destruct H as [? ?]; subst pr;
    right; left; reflexivity.
Qed.

Lemma debug_line_witness :
  In "--- DEBUG: Using SERPER_API_KEY ending in '...1234' ---"
     (printed (events_of (search_web (Script.env Script.blank) "sushi") Script.w0)).
Proof.
  apply (debug_line_shows_key_tail (Script.env Script.blank) "sushi" Script.w0 "key-1234");
    [reflexivity | discriminate].
Defined.

(** ** The page fetcher *)

Lemma browse_website_view (E : Env) url w :
  exists result pr,
    outcome_of (browse_website E url) w = Returned result
    /\ events_of (browse_website E url) w = (map EvPrint pr ++ [EvBrowse url result])%list
    /\ match page_get E (EvPrint (browse_tool_line url) :: log w) url with
       | PageError e =>
           result = "Error browsing website " ++ url ++ ": " ++ e
           /\ pr = [browse_tool_line url]
       | PageText text =>
           if is_empty text then
             result = "Error: No text content found at " ++ url
             /\ pr = [browse_tool_line url]
           else
             result = take 8000 text
             /\ pr = [browse_tool_line url; "--- Successfully browsed " ++ url ++ " ---"]
       end.
Proof.
  assert (H : exists result pr,
    runs (browse_website E url) w (Returned result)
         (map EvPrint pr ++ [EvBrowse url result])%list
    /\ match page_get E (EvPrint (browse_tool_line url) :: log w) url with
       | PageError e =>
           result = "Error browsing website " ++ url ++ ": " ++ e
           /\ pr = [browse_tool_line url]
       | PageText text =>
           if is_empty text then
             result = "Error: No text content found at " ++ url
             /\ pr = [browse_tool_line url]
           else
             result = take 8000 text
             /\ pr = [browse_tool_line url; "--- Successfully browsed " ++ url ++ " ---"]
       end).
  { unfold browse_website, browse_website_body, browse_tool_line. run_unfold.
    destruct (page_get E _ _) as [e | text].
    - eexists _, [_]. split; [reflexivity | split; reflexivity].
    - destruct (is_empty text).
      + eexists _, [_]. split; [reflexivity | split; reflexivity].
      + eexists _, [_; _]. split; [reflexivity | split; reflexivity]. }
  destruct H as (result & pr & Hr & H).
  apply runs_events in Hr as (Ho & He & _). exists result, pr. auto.
Qed.



Lemma startswith_take p n s :
  startswith p s = true -> String.length p <= n -> startswith p (take n s) = true.
Proof.
  unfold take. revert n s. induction p as [| a p IH]; intros n s H Hn; [reflexivity |].
  destruct s as [| b s]; [discriminate H |].
  change (String.length (String a p)) with (S (String.length p)) in Hn.
  destruct n as [| n]; [lia |]. cbn [substring startswith] in *.
  apply andb_true_iff in H as [-> H]. apply IH; [exact H | lia].
Qed.

(** X6.  A page that was fetched but whose text begins with "Error" is
    handled by the browsing loop as a failed fetch: it is fetched, the
    "Skipping" line is printed, and nothing is kept from it. *)
Theorem page_starting_with_Error_is_skipped (E : Env) (url : string) (w : World) (text : string) :
  (forall l, page_get E l url = PageText text) ->
  startswith "Error" text = true ->
  outcome_of (browse_step E [url] []) w = Returned []
  /\ browses (events_of (browse_step E [url] []) w) = [(url, take 8000 text)]
  /\ In ("--- Skipping " ++ url ++ " due to an error. ---")
        (printed (events_of (browse_step E [url] []) w)).
Proof.
  intros Hp Herr.
  destruct (browse_website_runs E url w) as (result & pr & Hr).
  destruct (browse_website_view E url w) as (result' & pr' & Ho & He & H).
  pose proof Hr as Hr'. apply runs_events in Hr' as (Ho' & He' & _).
  unfold outcome_of, events_of in Ho, He. rewrite Ho' in Ho. injection Ho as <-.
  rewrite Hp in H. destruct text as [| c text]; [discriminate Herr |].
  cbn [is_empty] in H. destruct H as [-> _].
  assert (Hs : startswith "Error" (take 8000 (String c text)) = true).
  { apply startswith_take; [exact Herr |]. cbn. lia. }
  assert (Hrun : runs (browse_step E [url] []) w (Returned [])
            ((map EvPrint pr ++ [EvBrowse url (take 8000 (String c text))])
             ++ [EvPrint ("--- Skipping " ++ url ++ " due to an error. ---")] ++ [])%list).
  { cbn [browse_step]. after_run Hr. rewrite Hs. cbn [negb]. after_print. apply runs_ret. }
  apply runs_events in Hrun as (Ho2 & He2 & _).
  unfold outcome_of, events_of. rewrite Ho2, He2.
  split; [reflexivity | split].
  - obs. reflexivity.
  - unfold printed. rewrite !omap_app, printed_prints. cbn [omap list_omap].
    apply in_or_app. right. now left.
Qed.

Lemma page_starting_with_Error_witness :
  outcome_of (browse_step (Script.env Script.error_page) ["https://a.example/errors"] [])
             Script.w0
  = Returned [].
Proof.
  apply (page_starting_with_Error_is_skipped (Script.env Script.error_page)
           "https://a.example/errors" Script.w0 "Error codes of the sushi API");
    reflexivity.
Defined.

(** ** The location service *)


(** ** The mail sender *)

Lemma send_email_spec (E : Env) to_address subject body w :
  let line := "--- Tool: Sending email to '" ++ to_address ++ "' ---" in
  match message_build E to_address subject body with
  | Some e =>
      runs (send_email E to_address subject body) w (Raised e)
           [EvPrint line; EvSendEmail to_address subject body (inl e)]
  | None =>
      let result :=
        match smtp_send E (EvPrint line :: log w) to_address subject body with
        | None => "Email sent successfully to " ++ to_address ++ "."
        | Some e => "Error sending email: " ++ e
        end in
      runs (send_email E to_address subject body) w (Returned result)
           [EvPrint line; EvSendEmail to_address subject body (inr result)]
  end.
Proof.
  unfold send_email, send_email_body. run_unfold.
  change (negb smtp_configured) with false. cbv iota.
  destruct (message_build E _ _ _) as [e |]; [reflexivity |].
  run_unfold. destruct (smtp_send E _ _ _ _); reflexivity.
Qed.

(** X8.  With the SMTP settings of the module the configuration check always
    passes.  [send_email] logs exactly one mail call; it raises when, and only
    when, filling in the message raises; otherwise it returns "Email sent
    successfully to" the address when the transport succeeded and "Error
    sending email:" with the exception text when the transport failed, which is
    therefore never raised. *)
Theorem send_email_outcomes (E : Env) (to_address : string) (subject body : pyval) (w : World) :
  smtp_configured = true
  /\ mails (events_of (send_email E to_address subject body) w) = [(to_address, subject, body)]
  /\ match message_build E to_address subject body with
     | Some e => outcome_of (send_email E to_address subject body) w = Raised e
     | None =>
         exists l,
           outcome_of (send_email E to_address subject body) w
           = Returned (match smtp_send E l to_address subject body with
                       | None => "Email sent successfully to " ++ to_address ++ "."
                       | Some e => "Error sending email: " ++ e
                       end)
     end.
Proof.
  pose proof (send_email_spec E to_address subject body w) as H. cbv zeta in H.
  split; [reflexivity |].
  destruct (message_build E to_address subject body) as [e |].
  - apply runs_events in H as (Ho & He & _). unfold outcome_of, events_of.
    rewrite Ho, He. split; reflexivity.
  - apply runs_events in H as (Ho & He & _). unfold outcome_of, events_of.
    rewrite Ho, He. split; [reflexivity | eexists; reflexivity].
Qed.

(** ** The generator *)

Lemma call_gemma_ollama_spec (E : Env) prompt output_format w :
  let payload :=
    OllamaPayload (OLLAMA_MODEL E) prompt false
      (if String.eqb output_format "json" then Some "json" else None) in
  let reply :=
    match ollama_post E (thinking E :: log w) (OLLAMA_HOST E ++ "/api/generate") payload with
    | OllamaOk response => or_default response "{}"
    | OllamaTimeout => timeout_message
    | OllamaRequestError e => "Error calling Ollama API: " ++ e ++ ". Is Ollama running?"
    | OllamaKeyError e response_text =>
        "Error parsing Ollama response: " ++ e ++ ". Response: " ++ response_text
    end in
  runs (call_gemma_ollama E prompt output_format) w (Returned reply)
       [thinking E; EvGenerate prompt output_format reply].
Proof.
  unfold call_gemma_ollama, call_gemma_ollama_body, thinking, timeout_message. run_unfold.
  cbv zeta. destruct (ollama_post E _ _ _); reflexivity.
Qed.


(** X10.  The default "{}" for a missing "response" field makes the email
    step a no-op: when "{}" decodes to the empty object, the step reads
    nothing, prints nothing, sends nothing and returns. *)
Theorem empty_object_decision_is_silent (E : Env) (recipient : string) (w : World) :
  json_loads E "{}" = inr (PDict ∅) ->
  outcome_of (email_step E recipient "{}") w = Returned tt
  /\ events_of (email_step E recipient "{}") w = [].
Proof.
  intros Hj.
  destruct (email_step_runs E recipient "{}" w) as (o & evs & Hr & Hrun).
  apply runs_events in Hr as (Ho & He & _). unfold outcome_of, events_of. rewrite Ho, He.
  assert (Hd : drafted E "{}" = None) by (unfold drafted; now rewrite Hj).
  destruct Hrun as [msg Hj' | v Hj' Hv | d Hj' Hd'
                    | s b r evs Hd' | s b r evs pr res Hd'
                    | s b r evs pr e Hd' | s b r evs pr e Hd'];
    [ rewrite Hj in Hj'; discriminate Hj'
    | rewrite Hj in Hj'; injection Hj' as <-; now contradiction (Hv ∅)
    | auto
    | congruence | congruence | congruence | congruence ].
Qed.

Lemma empty_object_decision_witness :
  events_of (email_step (Script.env Script.empty_object) "none" "{}") Script.w0 = [].
Proof.
  apply (empty_object_decision_is_silent (Script.env Script.empty_object) "none" Script.w0).
  reflexivity.
Defined.

(** ** What the chain hands on *)


Lemma extracted_shape (reply : string) :
  extracted reply = "none"
  \/ (contains "@" (extracted reply) = true
      /\ strip (extracted reply) = extracted reply
      /\ sendable (extracted reply) = true).
Proof.
  unfold extracted. destruct (contains "@" (strip reply)) eqn:Hc; [right | now left].
  split; [exact Hc | split; [apply strip_idem |]].
  apply sendable_iff. split; intros Heq; rewrite Heq in Hc; discriminate Hc.
Qed.


(** X13.  The query of the search of a turn has no double quote in it. *)
Theorem search_query_has_no_quote (E : Env) (goal : string) (w : World) :
  Forall (fun qr => contains dq (fst qr) = false)
         (searches (events_of (run_concierge_agent E goal) w)).
Proof.
  destruct (turn_shape E goal w) as [Hs _].
  destruct (turn_view E _ _ _ _ Hs)
    as (r_mail & gens_loc & r_query & goal' & results & r_urls & pre & rest
        & -> & _ & Hsp & _ & _ & _ & _ & Ht).
  destruct (tail_run_quiet E _ _ _ _ _ _ Ht) as [Hrest _].
  obs. rewrite Hsp, Hrest. cbn [app].
  constructor; [| constructor]. apply remove_char_has_none.
Qed.

(** X14.  When an address was taken from the goal, the decision is a draft
    and the user answers the prompt with "y" in either case, the mail goes to
    that address, with the subject and body of the draft; the user is asked
    once, with the prompt that shows the address, and is not asked to type
    one. *)
Theorem confirmed_address_from_goal_is_used
    (E : Env) (goal : string) (w : World) subject body answer :
  let evs := events_of (run_concierge_agent E goal) w in
  recipient_from_goal evs <> "none" ->
  draft_of E evs = Some (subject, body) ->
  confirmation evs = Some answer ->
  lower answer = "y" ->
  mails evs = [(recipient_from_goal evs, subject, body)]
  /\ inputs evs = [(reuse_prompt (recipient_from_goal evs), answer)].
Proof.
  intros evs Hrcp Hdraft Hconf Hy.
  destruct (turn_shape E goal w) as [Hs _]. fold evs in Hs.
  destruct (turn_email_view E _ _ _ _ Hs)
    as [(_ & _ & Hi & _)
       | (front & dec & om & evs_m & goal' & results & reply & agg & summary
          & Hevs & Hfm & Hfi & Hfd & Hmd & _ & _ & Hmail & _)].
  { unfold confirmation in Hconf. rewrite Hi in Hconf. discriminate Hconf. }
  set (rcp := recipient_from_goal evs) in *.
  assert (Hsend : sendable rcp = true).
  { unfold rcp, recipient_from_goal in *. destruct (generations evs) as [| [[? ?] r] ?];
      [now contradiction Hrcp |].
    destruct (extracted_shape r) as [Hn | (_ & _ & H)]; [now contradiction Hrcp | exact H]. }
  unfold draft_of, confirmation in *. clearbody rcp.
  rewrite Hevs in *. clear Hevs.
  rewrite !mails_app, !inputs_app, !decisions_app, Hfm, Hfi, Hfd, Hmd in *.
  cbn [app] in *.
  apply String.eqb_neq in Hrcp. apply String.eqb_eq in Hy.
  destruct Hmail as [msg Hj | v Hj Hv | d Hj Hd
                    | s b r evs' Hd Hr Hsd | s b r evs' pr res Hd Hr Hsd
                    | s b r evs' pr e Hd Hr Hsd Hc | s b r evs' pr e Hd Hr Hsd Hc];
    try (revert Hconf; obs; discriminate);
    destruct Hr as [c Hn Hc' | c Hn Hc' | c a Hn Hc' | c Hn Hc']; try congruence;
    revert Hconf; obs; intros Hconf; injection Hconf as ->; try congruence.
  all: rewrite Hdraft in Hd; injection Hd as <- <-; auto.
Qed.

Lemma confirmed_address_witness :
  let E := Script.env (Script.with_address ["Y"]) in
  let evs := events_of (run_concierge_agent E "send sushi tips to ann@example.com") Script.w0 in
  mails evs = [("ann@example.com", PStr "Sushi picks", PStr "Sushi A")]
  /\ inputs evs = [(reuse_prompt "ann@example.com", "Y")].
Proof.
  intros E evs.
  apply (confirmed_address_from_goal_is_used E "send sushi tips to ann@example.com" Script.w0
           (PStr "Sushi picks") (PStr "Sushi A") "Y").
  - vm_compute. discriminate.
  - vm_compute. reflexivity.
  - vm_compute. reflexivity.
  - reflexivity.
Defined.

(** ** Exceptions in the email step *)


Lemma runs_fun {A} (m : M A) w o evs :
  runs m w o evs -> outcome_of m w = o /\ events_of m w = evs.
Proof. intros H. apply runs_events in H as (Ho & He & _). auto. Qed.




(** X17.  A pass of the main loop in which the turn raises adds nothing to
    the history and raises in turn, and so does the loop: the session ends
    there. *)
Theorem raised_turn_ends_the_session (E : Env) (w : World) (fuel : nat) (e : exn) :
  outcome_of (main_turn E) w = Raised e ->
  conversation_history (snd (main_turn E w)) = conversation_history w
  /\ outcome_of (main_loop E (S fuel)) w = Raised e
  /\ conversation_history (snd (main_loop E (S fuel) w)) = conversation_history w.
Proof.
  intros Ho. destruct (main_turn_history E w) as (user_goal & _ & H).
  assert (Hh : conversation_history (snd (main_turn E w)) = conversation_history w).
  { destruct (quits user_goal); [apply H |].
    destruct (outcome_of (run_concierge_agent E user_goal) _); [| apply H].
    destruct H as [H _]. rewrite H in Ho. discriminate Ho. }
  split; [exact Hh |]. unfold outcome_of in *. cbn [main_loop]. unfold bind.
  destruct (main_turn E w) as [o w']. cbn [fst snd] in *. subst o. auto.
Qed.

(** ** The generator is down *)

Lemma timeout_has_no_at : contains "@" (strip timeout_message) = false.
Proof. vm_compute. reflexivity. Qed.

Lemma timeout_has_no_yes : contains "yes" (lower (strip timeout_message)) = false.
Proof. vm_compute. reflexivity. Qed.

Lemma timeout_has_no_url : select_urls timeout_message = [].
Proof. vm_compute. reflexivity. Qed.

Lemma timeout_is_clean : remove_char (ascii_of_nat 34) (strip timeout_message) = timeout_message.
Proof. vm_compute. reflexivity. Qed.

Lemma call_times_out (E : Env) prompt output_format w :
  (forall l u p, ollama_post E l u p = OllamaTimeout) ->
  runs (call_gemma_ollama E prompt output_format) w (Returned timeout_message)
       [thinking E; EvGenerate prompt output_format timeout_message].
Proof.
  intros Ht. pose proof (call_gemma_ollama_spec E prompt output_format w) as H.
  cbv zeta in H. now rewrite Ht in H.
Qed.

(** X18.  When every request to the generator times out, the turn takes the
    error text of the generator for every reply: it finds no address and no
    need for a location, searches the web for the error text itself, selects no
    page, and returns the error text as the summary of the turn, after five
    generation calls and without fetching, asking or sending anything. *)
Theorem generator_timeouts_return_the_error_text (E : Env) (goal : string) (w : World) :
  (forall l u p, ollama_post E l u p = OllamaTimeout) ->
  let evs := events_of (run_concierge_agent E goal) w in
  outcome_of (run_concierge_agent E goal) w
  = Returned "Error: Ollama API request timed out. The model might be taking too long to respond."
  /\ map fst (searches evs)
     = ["Error: Ollama API request timed out. The model might be taking too long to respond."]
  /\ map (fun g => snd (fst g)) (generations evs) = ["text"; "text"; "text"; "text"; "text"]
  /\ browses evs = [] /\ inputs evs = [] /\ mails evs = [].
Proof.
  intros Ht evs.
  pose proof (fun p f w => call_times_out E p f w Ht) as Hcall.
  pose proof (Hcall (prompt_extract_email goal) "text" w) as H1.
  next_world H1 ltac:(fun w1 =>
    pose proof (runs_print (nl ++ "🎯 Goal: " ++ goal ++ nl) w1) as H2).
  next_world H2 ltac:(fun w2 => pose proof (Hcall (prompt_location_check goal) "text" w2) as H3).
  next_world H3 ltac:(fun w3 =>
    pose proof (Hcall (prompt1 (join nl (conversation_history w3)) goal) "text" w3) as H4).
  next_world H4 ltac:(fun w4 =>
    destruct (search_web_runs E timeout_message w4) as (results & pr & H5)).
  next_world H5 ltac:(fun w5 => pose proof (runs_print results w5) as H6).
  next_world H6 ltac:(fun w6 => pose proof (Hcall (prompt2 goal results) "text" w6) as H7).
  next_world H7 ltac:(fun w7 =>
    pose proof (runs_print "--- Could not identify promising URLs to browse. Trying to summarize from search results directly. ---" w7) as H8).
  next_world H8 ltac:(fun w8 =>
    pose proof (Hcall (prompt_summarize_snippets goal results) "text" w8) as H9).
  assert (Hrun : exists all,
    runs (run_concierge_agent E goal) w (Returned timeout_message) all
    /\ all = ([thinking E; EvGenerate (prompt_extract_email goal) "text" timeout_message;
               EvPrint (nl ++ "🎯 Goal: " ++ goal ++ nl);
               thinking E; EvGenerate (prompt_location_check goal) "text" timeout_message;
               thinking E;
               EvGenerate (prompt1 (join nl (conversation_history w)) goal) "text" timeout_message]
              ++ map EvPrint pr
              ++ [EvSearch timeout_message results; EvPrint results;
                  thinking E; EvGenerate (prompt2 goal results) "text" timeout_message;
                  EvPrint "--- Could not identify promising URLs to browse. Trying to summarize from search results directly. ---";
                  thinking E;
                  EvGenerate (prompt_summarize_snippets goal results) "text" timeout_message]
              ++ summary_prints timeout_message)%list).
  { eexists. split.
    - unfold run_concierge_agent.
      eapply runs_bind.
      { unfold extract_email_step. after_run H1. rewrite timeout_has_no_at. apply runs_ret. }
      rewrite app_nil_r. after_run H2.
      eapply runs_bind.
      { unfold location_step. after_run H3. rewrite timeout_has_no_yes. apply runs_ret. }
      rewrite app_nil_r.
      eapply runs_bind.
      { unfold plan_query_step, runs. cbv beta.
        fold (runs (bind (call_gemma_ollama E
                            (prompt1 (join nl (conversation_history
                               (after (after (after w
                                  [thinking E;
                                   EvGenerate (prompt_extract_email goal) "text" timeout_message])
                                  [EvPrint (nl ++ "🎯 Goal: " ++ goal ++ nl)])
                                  [thinking E;
                                   EvGenerate (prompt_location_check goal) "text" timeout_message])))
                               goal) "text")
                         (fun reply => ret (remove_char (ascii_of_nat 34) (strip reply))))
                   (after (after (after w
                      [thinking E; EvGenerate (prompt_extract_email goal) "text" timeout_message])
                      [EvPrint (nl ++ "🎯 Goal: " ++ goal ++ nl)])
                      [thinking E; EvGenerate (prompt_location_check goal) "text" timeout_message])
                   (Returned timeout_message)
                   ([thinking E;
                     EvGenerate (prompt1 (join nl (conversation_history w)) goal) "text"
                       timeout_message] ++ [])%list).
        after_run H4. rewrite timeout_is_clean. apply runs_ret. }
      rewrite app_nil_r. after_run H5. after_run H6.
      eapply runs_bind.
      { unfold select_urls_step. after_run H7. apply runs_ret. }
      rewrite app_nil_r, timeout_has_no_url.
      after_run H8. after_run H9. after_print. after_print. after_print. apply runs_ret.
    - unfold summary_prints. list_eq. }
  destruct Hrun as (all & Hrun & Hall). apply runs_fun in Hrun as [Ho He].
  subst evs. rewrite Ho, He, Hall. unfold timeout_message.
  split; [reflexivity |]. obs. cbn [map fst snd]. auto 10.
Qed.


Lemma raised_turn_witness :
  let E := Script.with_mail
             (Script.env (Script.answered Script.complete_draft ["sushi"; "y"; "a@b.com"]))
             (Some Script.header_error) None in
  outcome_of (main_loop E 3) (mkWorld [] ["User: hello"; "Agent: hi"])
  = Raised Script.header_error
  /\ conversation_history (snd (main_loop E 3 (mkWorld [] ["User: hello"; "Agent: hi"])))
     = ["User: hello"; "Agent: hi"].
Proof.
  intros E.
  assert (Ho : outcome_of (main_turn E) (mkWorld [] ["User: hello"; "Agent: hi"])
               = Raised Script.header_error) by (vm_compute; reflexivity).
  exact (proj2 (raised_turn_ends_the_session E _ 2 _ Ho)).
Defined.

Lemma generator_timeouts_witness :
  let E := Script.with_generator (Script.env Script.blank) OllamaTimeout in
  outcome_of (run_concierge_agent E "sushi in Seattle") Script.w0
  = Returned "Error: Ollama API request timed out. The model might be taking too long to respond.".
Proof.
  intros E.
  exact (proj1 (generator_timeouts_return_the_error_text E "sushi in Seattle" Script.w0
                  (fun _ _ _ => eq_refl))).
Defined.

(** ** The session *)

(** X19.  Without an API key [main] prints the two lines of the fatal error
    and returns: it reads nothing, calls nothing, and leaves the history as it
    is. *)
Theorem main_without_key_stops (E : Env) (fuel : nat) (w : World) :
  falsy_opt (SERPER_API_KEY E) = true ->
  outcome_of (main E fuel) w = Returned true
  /\ events_of (main E fuel) w
     = [EvPrint "🔴 FATAL ERROR: SERPER_API_KEY environment variable not set.";
        EvPrint "Please get a free key from https://serper.dev and set the variable."]
  /\ conversation_history (snd (main E fuel w)) = conversation_history w.
Proof.
  intros Hk.
  assert (Hr : runs (main E fuel) w (Returned true)
            [EvPrint "🔴 FATAL ERROR: SERPER_API_KEY environment variable not set.";
             EvPrint "Please get a free key from https://serper.dev and set the variable."]).
  { unfold main. rewrite Hk. reflexivity. }
  apply runs_events in Hr as (Ho & He & Hh). auto.
Qed.

Lemma main_without_key_witness :
  outcome_of (main (Script.no_variables (Script.env Script.blank)) 3) Script.w0 = Returned true.
Proof.
  exact (proj1 (main_without_key_stops (Script.no_variables (Script.env Script.blank)) 3
                  Script.w0 eq_refl)).
Defined.

Lemma main_with_key (E : Env) fuel w :
  falsy_opt (SERPER_API_KEY E) = false ->
  main E fuel w
  = main_loop E fuel (mkWorld (rev (greeting E) ++ log w)%list []).
Proof. intros Hk. unfold main. rewrite Hk. reflexivity. Qed.

(** X20.  With a key, when the first line typed is "quit" or "exit" in any
    mix of cases, [main] greets, reads that one line, says goodbye and
    returns; no generation, search, fetch or mail call is made and the history
    is empty. *)
Theorem main_quits_on_first_line (E : Env) (fuel : nat) (w : World) :
  falsy_opt (SERPER_API_KEY E) = false ->
  quits (stdin_line E (rev (greeting E) ++ log w)%list main_prompt) = true ->
  let evs := events_of (main E (S fuel)) w in
  outcome_of (main E (S fuel)) w = Returned true
  /\ (exists line, inputs evs = [(main_prompt, line)])
  /\ last_of evs = Some (EvPrint "🤖 Goodbye!")
  /\ generations evs = [] /\ searches evs = [] /\ browses evs = [] /\ mails evs = []
  /\ conversation_history (snd (main E (S fuel) w)) = [].
Proof.
  intros Hk Hq evs. subst evs. unfold outcome_of, events_of.
  rewrite (main_with_key E (S fuel) w Hk).
  set (w1 := mkWorld (rev (greeting E) ++ log w)%list []).
  set (line := stdin_line E (log w1) main_prompt).
  assert (Hin : runs (input E main_prompt) w1 (Returned line) [EvInput main_prompt line])
    by reflexivity.
  assert (Hturn : runs (main_turn E) w1 (Returned false)
                       ([EvInput main_prompt line] ++ [EvPrint "🤖 Goodbye!"] ++ [])%list).
  { unfold main_turn. fold main_prompt. after_run Hin. fold (quits line).
    unfold line, w1. cbn [log]. rewrite Hq. after_print. apply runs_ret. }
  assert (Hrun : main_loop E (S fuel) w1
                 = (Returned true,
                    mkWorld (EvPrint "🤖 Goodbye!" :: EvInput main_prompt line :: log w1) [])).
  { cbn [main_loop]. unfold bind. unfold runs in Hturn. rewrite Hturn. reflexivity. }
  rewrite Hrun. cbn [fst snd conversation_history].
  rewrite (events_since_log w _ (greeting E ++ [EvInput main_prompt line; EvPrint "🤖 Goodbye!"])%list).
  2:{ cbn [log w1]. rewrite rev_app_distr. reflexivity. }
  split; [reflexivity |]. split; [exists line; reflexivity |].
  split; [reflexivity |]. auto 10.
Qed.

Lemma main_quits_witness :
  outcome_of (main (Script.env Script.leaves_at_once) 1) Script.w0 = Returned true
  /\ conversation_history (snd (main (Script.env Script.leaves_at_once) 1 Script.w0)) = [].
Proof.
  destruct (main_quits_on_first_line (Script.env Script.leaves_at_once) 0 Script.w0
              eq_refl eq_refl) as (Ho & _ & _ & _ & _ & _ & _ & Hh).
  split; [exact Ho | exact Hh].
Defined.



(** ** Memory *)

Lemma startswith_refl s : startswith s s = true.
Proof. induction s as [| c s IH]; [reflexivity |]. cbn. now rewrite Ascii.eqb_refl, IH. Qed.

Lemma contains_refl s : contains s s = true.
Proof. destruct s; cbn [contains]; now rewrite startswith_refl. Qed.

Lemma contains_join sep entry l : In entry l -> contains entry (join sep l) = true.
Proof.
  unfold join. induction l as [| x l IH]; [intros [] |].
  intros [-> | Hin].
  - destruct l; cbn [String.concat]; [apply contains_refl |].
    apply contains_app_l, contains_refl.
  - destruct l as [| y l]; [destruct Hin |].
    cbn [String.concat]. apply contains_app_r, contains_app_r. now apply IH.
Qed.

(** X22.  The planning prompt of a turn carries the whole history: every
    entry of the history the turn starts with occurs in the prompt of the
    query-planning call, entries held from all earlier turns included. *)
Theorem planning_prompt_contains_history (E : Env) (goal : string) (w : World) :
  exists goal' reply,
    In (prompt1 (join nl (conversation_history w)) goal', "text", reply)
       (generations (events_of (run_concierge_agent E goal) w))
    /\ forall entry,
         In entry (conversation_history w) ->
         contains entry (prompt1 (join nl (conversation_history w)) goal') = true.
Proof.
  destruct (turn_shape E goal w) as [Hs _].
  destruct (turn_view E _ _ _ _ Hs)
    as (r_mail & gens_loc & r_query & goal' & results & r_urls & pre & rest
        & -> & Hg & _).
  exists goal', r_query. split.
  - rewrite generations_app, Hg. apply in_or_app. left. right.
    apply in_or_app. right. now left.
  - intros entry Hin. unfold prompt1.
    apply contains_app_r, contains_app_l. now apply contains_join.
Qed.

(** ** The cost of a turn *)


Lemma length_obs_app {A} (f : event -> option A) a b :
  length (omap f (a ++ b)%list) = length (omap f a) + length (omap f b).
Proof. now rewrite omap_app, length_app. Qed.

